(** * saf_converter: spreadsheet rows to DSpace Simple Archive Format

    A shallow embedding of [saf_converter.py] and [validate_saf.py].

    Conventions of the embedding.
    - A Python [str] is a [string]; each [ascii] is read as the code point
      of the same number, so the model covers text in the range U+0000 to
      U+00FF.  [isspace], [lower] and the regular-expression classes [\s]
      and [\d] are the restrictions of Python's to that range.
    - A cell read by pandas with [dtype=str] is a [pyval]: a string, the
      float NaN of an empty cell, or [None].
    - Files and directories are explicit state: the bitstream directory is
      an optional listing, the output tree a map from package number to
      package, and every operating-system call that can raise is decided
      by a field of the environment [env].
    - An [exn] is an instance of a subclass of Python's [Exception], which
      is what [except Exception] catches.
    - A Python [set] of strings is a list without repetition; the order in
      which the run-time iterates it is the field [set_order] of [env]. *)

From Stdlib Require Import String Ascii List Bool Arith ZArith Lia.
From Stdlib Require Import Permutation Sorted Orders Mergesort.
Import ListNotations.
Local Open Scope string_scope.
Local Open Scope list_scope.
Local Open Scope nat_scope.

(** ** Python string primitives *)

Module PyStr.

Definition code (c : ascii) : nat := nat_of_ascii c.

Definition between (lo hi n : nat) : bool := (lo <=? n) && (n <=? hi).

(** [str.isspace] on one character, which is also the class [\s]. *)
Definition isspace (c : ascii) : bool :=
  let n := code c in
  between 9 13 n || between 28 32 n || (n =? 133) || (n =? 160).

(** The class [\d]: decimal digits. *)
Definition isdigit (c : ascii) : bool := between 48 57 (code c).

Definition lower_char (c : ascii) : ascii :=
  let n := code c in
  if between 65 90 n || (between 192 222 n && negb (n =? 215))
  then ascii_of_nat (n + 32) else c.

(** [s.lower()] *)
Fixpoint lower (s : string) : string :=
  match s with
  | EmptyString => EmptyString
  | String c r => String (lower_char c) (lower r)
  end.

Definition rev (s : string) : string :=
  string_of_list_ascii (List.rev (list_ascii_of_string s)).

Fixpoint lstrip (s : string) : string :=
  match s with
  | EmptyString => EmptyString
  | String c r => if isspace c then lstrip r else s
  end.

Definition rstrip (s : string) : string := rev (lstrip (rev s)).

(** [s.strip()] *)
Definition strip (s : string) : string := rstrip (lstrip s).

(** [s.startswith(p)] *)
Definition startswith (s p : string) : bool := prefix p s.

(** [sub in s] *)
Fixpoint contains (sub s : string) : bool :=
  prefix sub s ||
  match s with
  | EmptyString => false
  | String _ r => contains sub r
  end.

(** [c in s] for a single character. *)
Fixpoint has_char (c : ascii) (s : string) : bool :=
  match s with
  | EmptyString => false
  | String d r => Ascii.eqb d c || has_char c r
  end.

(** [s.split(sep)] for a separator of one character. *)
Fixpoint split (sep : ascii) (s : string) : list string :=
  match s with
  | EmptyString => [EmptyString]
  | String c r =>
      if Ascii.eqb c sep then EmptyString :: split sep r
      else match split sep r with
           | h :: t => String c h :: t
           | [] => [String c EmptyString]
           end
  end.

(** [sep.join(l)] *)
Definition join (sep : string) (l : list string) : string := String.concat sep l.

(** [re.sub("[...]+", "", s)]: every character of the class is removed. *)
Fixpoint remove_class (cls : ascii -> bool) (s : string) : string :=
  match s with
  | EmptyString => EmptyString
  | String c r => if cls c then remove_class cls r else String c (remove_class cls r)
  end.

(** [re.split("[...]+", s)]: the pieces between maximal runs of
    characters of the class; [cur] is the piece being read, reversed, and
    [in_run] tells whether the previous character belonged to the class. *)
Fixpoint re_split_go (cls : ascii -> bool) (s : string) (cur : string)
  (in_run : bool) : list string :=
  match s with
  | EmptyString => [rev cur]
  | String c r =>
      if cls c then
        if in_run then re_split_go cls r cur true
        else rev cur :: re_split_go cls r EmptyString true
      else re_split_go cls r (String c cur) false
  end.

Definition re_split (cls : ascii -> bool) (s : string) : list string :=
  re_split_go cls s EmptyString false.

(** The part of [s] after its last occurrence of [c], and [s] itself when
    [c] does not occur: [s[s.rfind(c) + 1:]]. *)
Fixpoint after_last (c : ascii) (s : string) : string :=
  match s with
  | EmptyString => EmptyString
  | String d r =>
      if has_char c r then after_last c r
      else if Ascii.eqb d c then r else s
  end.

(** [s.rfind(c)], with [None] for Python's -1. *)
Fixpoint rfind (c : ascii) (s : string) : option nat :=
  match s with
  | EmptyString => None
  | String d r =>
      match rfind c r with
      | Some i => Some (S i)
      | None => if Ascii.eqb d c then Some 0 else None
      end
  end.

(** [s[i:]] *)
Fixpoint drop (i : nat) (s : string) : string :=
  match i, s with
  | 0, _ => s
  | S j, String _ r => drop j r
  | S _, EmptyString => EmptyString
  end.

(** [s.split()[0]]: the first maximal run of characters that are not
    whitespace, [None] where Python raises [IndexError]. *)
Fixpoint take_word (s : string) : string :=
  match s with
  | EmptyString => EmptyString
  | String c r => if isspace c then EmptyString else String c (take_word r)
  end.

Definition first_word (s : string) : option string :=
  match lstrip s with
  | EmptyString => None
  | w => Some (take_word w)
  end.

End PyStr.

(** ** Cell values *)

Inductive pyval : Type :=
| PNone
| PNaN
| PStr (s : string).

(** [str(v)] *)
Definition py_str (v : pyval) : string :=
  match v with
  | PNone => "None"
  | PNaN => "nan"
  | PStr s => s
  end.

(** [str(c)] for a column label, which is a string or [None]. *)
Definition py_str_opt (c : option string) : string :=
  match c with
  | None => "None"
  | Some s => s
  end.

Definition str_in (s : string) (l : list string) : bool :=
  existsb (String.eqb s) l.

(** ** saf_converter.py *)

Module Config.

Definition LANG_ATTR : string := "en".
Definition MAX_HEADER_SCAN : nat := 25.
Definition ALLOWED_FILE_EXTENSIONS : list string :=
  [".cr2"; ".cr3"; ".pdf"; ".doc"; ".docx"; ".jpg"; ".jpeg"; ".png"; ".gif";
   ".tiff"; ".mp3"; ".mp4"; ".wav"; ".avi"; ".mov"; ".mpeg"; ".mpg"; ".txt";
   ".rtf"; ".xls"; ".xlsx"; ".zip"; ".rar"; ".7z"].
Definition REQUIRED_FIELDS : list string := ["title"; "creator"; "date.issued"].

End Config.

(** [is_blank], lines 67-74. *)
Definition is_blank (v : pyval) : bool :=
  match v with
  | PNone => true
  | PNaN => true
  | PStr s => str_in (PyStr.lower (PyStr.strip s)) [""; "nan"; "none"]
  end.

(** [os.path.basename(str(name).strip())], POSIX flavour. *)
Definition basename_only (name : string) : string :=
  PyStr.after_last "/" (PyStr.strip name).

(** [norm_header], lines 82-83: [str(h).strip()]. *)
Definition norm_header (h : option string) : string :=
  PyStr.strip (py_str_opt h).

(** The class [[\s_\-\.]]. *)
Definition key_noise (c : ascii) : bool :=
  PyStr.isspace c || Ascii.eqb c "_" || Ascii.eqb c "-" || Ascii.eqb c ".".

(** [norm_key_for_match], lines 85-87. *)
Definition norm_key_for_match (h : string) : string :=
  PyStr.remove_class key_noise (PyStr.lower (PyStr.strip h)).

(** [is_dc_column], lines 137-140. *)
Definition is_dc_column (col : option string) : bool :=
  match col with
  | None => false
  | Some c => PyStr.startswith (PyStr.lower (PyStr.strip c)) "dc."
  end.

(** *** base_header, lines 142-146

    [re.sub(r"\.(\d+)$", "", col)].  The pattern can match once at most,
    and [$] matches at the end of the string or just before a newline that
    ends it.  [dot_digits_tail] works on the reversed characters: it
    answers what precedes a final [.<digits>] when there is one. *)

Fixpoint drop_digits (l : list ascii) : list ascii :=
  match l with
  | c :: r => if PyStr.isdigit c then drop_digits r else l
  | [] => []
  end.

Definition dot_digits_tail (l : list ascii) : option (list ascii) :=
  match l with
  | c :: _ =>
      if PyStr.isdigit c then
        match drop_digits l with
        | d :: p => if Ascii.eqb d "." then Some p else None
        | [] => None
        end
      else None
  | [] => None
  end.

Definition newline : ascii := ascii_of_nat 10.

Definition base_header (col : option string) : string :=
  match col with
  | None => ""
  | Some s =>
      let r := List.rev (list_ascii_of_string s) in
      match dot_digits_tail r with
      | Some p => string_of_list_ascii (List.rev p)
      | None =>
          match r with
          | c :: r' =>
              if Ascii.eqb c newline then
                match dot_digits_tail r' with
                | Some p => string_of_list_ascii (List.rev p ++ [newline])
                | None => s
                end
              else s
          | [] => s
          end
      end
  end.

(** [parse_dc], lines 148-165. *)
Definition parse_dc (col : option string) : option string * option string :=
  match col with
  | None => (None, None)
  | Some s =>
      let c := PyStr.lower (PyStr.strip s) in
      if negb (PyStr.startswith c "dc.") then (None, None)
      else
        match PyStr.split "." c with
        | [_; e] => (Some e, None)
        | _ :: e :: q => (Some e, Some (PyStr.join "." q))
        | _ => (None, None)
        end
  end.

(** *** find_header_row, lines 89-121

    [sheet] is what [pd.read_excel(..., header=None, dtype=str)] returns,
    row by row; [nrows=max_scan] keeps its first [max_scan] rows, which
    [iterrows] numbers from 0. *)

Definition row_cells (row : list pyval) : list string :=
  map (fun x => PyStr.strip (py_str x)) (filter (fun x => negb (is_blank x)) row).

Definition has_filename (row : list pyval) : bool :=
  existsb (fun c => PyStr.contains "filename" (norm_key_for_match c)) (row_cells row).

Definition dc_count (row : list pyval) : nat :=
  List.length
    (filter (fun c => PyStr.startswith c "dc.") (map PyStr.lower (row_cells row))).

Fixpoint header_scan (rows : list (list pyval)) (i : nat)
  (best_idx : option nat) (best_dc_count : Z) : nat :=
  match rows with
  | row :: rest =>
      if has_filename row && (2 <=? dc_count row) then i
      else if (best_dc_count <? Z.of_nat (dc_count row))%Z
           then header_scan rest (S i) (Some i) (Z.of_nat (dc_count row))
           else header_scan rest (S i) best_idx best_dc_count
  | [] =>
      match best_idx with
      | Some b => if (0 <? best_dc_count)%Z then b else 0
      | None => 0
      end
  end.

Definition find_header_row (sheet : list (list pyval)) (max_scan : nat) : nat :=
  header_scan (firstn max_scan sheet) 0 None (-1)%Z.

(** [detect_filename_columns], lines 123-135. *)
Definition detect_filename_columns (columns : list (option string)) : list string :=
  flat_map
    (fun c =>
       match c with
       | None => []
       | Some name =>
           let key := norm_key_for_match name in
           if PyStr.contains "filename" key || PyStr.contains "file" key
              || PyStr.contains "bitstream" key
           then [name] else []
       end)
    columns.

(** *** validate_required_fields, lines 197-224 *)

Definition opt_is (o : option string) (s : string) : bool :=
  match o with
  | Some x => String.eqb x s
  | None => false
  end.

(** The inner loop over [zip(columns, row_values)], with its [break]:
    whether [found] is set for the specifier [element]. *)
Fixpoint field_found (element : string) (columns : list (option string))
  (row_values : list pyval) : bool :=
  match columns, row_values with
  | col :: columns', val :: row_values' =>
      if is_blank val then field_found element columns' row_values'
      else
        let col_base := base_header (Some (norm_header col)) in
        if negb (is_dc_column (Some col_base))
        then field_found element columns' row_values'
        else
          let (element_name, qualifier) := parse_dc (Some col_base) in
          if opt_is element_name (hd "" (PyStr.split "." element)) then
            if PyStr.has_char "." element then
              if opt_is qualifier (nth 1 (PyStr.split "." element) "")
              then true
              else field_found element columns' row_values'
            else true
          else field_found element columns' row_values'
  | _, _ => false
  end.

Definition required_fields_missing (required : list string)
  (columns : list (option string)) (row_values : list pyval) : list string :=
  filter (fun element => negb (field_found element columns row_values)) required.

Definition validate_required_fields (columns : list (option string))
  (row_values : list pyval) : list string :=
  required_fields_missing Config.REQUIRED_FIELDS columns row_values.

(** *** write_dc_xml, lines 228-293

    The document is the list of [dcvalue] children of the root element, in
    document order; its serialisation is left to ElementTree. *)

Record dcvalue : Type := mk_dcvalue {
  dc_element : string;
  dc_qualifier : string;
  dc_language : string;
  dc_text : string
}.

Definition triple : Type := (string * string * string)%type.

Definition triple_eqb (a b : triple) : bool :=
  let '(e1, q1, t1) := a in
  let '(e2, q2, t2) := b in
  String.eqb e1 e2 && String.eqb q1 q2 && String.eqb t1 t2.

(** [qualifier or "none"] *)
Definition or_none (qualifier : option string) : string :=
  match qualifier with
  | Some EmptyString => "none"
  | Some q => q
  | None => "none"
  end.

(** What one column contributes before the [seen] test: the dedup triple of
    the column, or [None] where the loop body reaches a [continue]. *)
Definition column_triple (raw_col : option string) (val : pyval) : option triple :=
  if is_blank val then None
  else
    match raw_col with
    | None => None
    | Some _ =>
        let base_col := base_header (Some (norm_header raw_col)) in
        if negb (is_dc_column (Some base_col)) then None
        else
          match parse_dc (Some base_col) with
          | (None, _) => None
          | (Some element, qualifier) =>
              let text := PyStr.strip (py_str val) in
              if String.eqb text "" then None
              else Some (element, or_none qualifier, text)
          end
    end.

Definition node_of (trip : triple) : dcvalue :=
  let '(element, qualifier, text) := trip in
  mk_dcvalue element qualifier Config.LANG_ATTR text.

Definition triple_of (d : dcvalue) : triple :=
  (dc_element d, dc_qualifier d, dc_text d).

Fixpoint write_dc_loop (columns : list (option string)) (row_values : list pyval)
  (seen : list triple) (root : list dcvalue) : list dcvalue :=
  match columns, row_values with
  | raw_col :: columns', val :: row_values' =>
      match column_triple raw_col val with
      | None => write_dc_loop columns' row_values' seen root
      | Some trip =>
          if existsb (triple_eqb trip) seen
          then write_dc_loop columns' row_values' seen root
          else write_dc_loop columns' row_values' (trip :: seen) (root ++ [node_of trip])
      end
  | _, _ => root
  end.

Definition write_dc_xml (columns : list (option string)) (row_values : list pyval)
  : list dcvalue :=
  write_dc_loop columns row_values [] [].

(** *** The file system and the exceptions of the run *)

Inductive exn : Type :=
| FileNotFoundError (path : string)
| OSError (operation : string)
| IndexError.

Inductive result (A : Type) : Type :=
| Ok (a : A)
| Raise (e : exn).

Arguments Ok {A} a.
Arguments Raise {A} e.

(** A directory of plain files on a case-sensitive file system: [None]
    when the directory does not exist, else its entries in the order
    [iterdir] yields them.  File names are single path components. *)
Definition directory : Type := option (list string).

(** [(d / name).exists()] *)
Definition path_exists (d : directory) (name : string) : bool :=
  match d with
  | None => false
  | Some entries => str_in name entries
  end.

(** [d.iterdir()], consumed by a [for] loop. *)
Definition iterdir (d : directory) : result (list string) :=
  match d with
  | None => Raise (FileNotFoundError "bitstreams_dir")
  | Some entries => Ok entries
  end.

(** [re.compile(re.escape(fname), re.IGNORECASE).fullmatch(name)] *)
Definition ci_fullmatch (fname name : string) : bool :=
  String.eqb (PyStr.lower fname) (PyStr.lower name).

(** [Path(fname).suffix] for a single path component (CPython up to 3.13):
    [i = name.rfind('.')], and [name[i:]] when [0 < i < len(name) - 1]. *)
Definition path_suffix (name : string) : string :=
  match PyStr.rfind "." name with
  | Some i =>
      if (0 <? i) && (i <? String.length name - 1) then PyStr.drop i name else ""
  | None => ""
  end.

(** *** find_files_for_item, lines 168-194

    [strategy2] is the loop over [iterdir()] with its [break], [strategy3]
    the test on the suffix and the loop over the allowed extensions with
    its [break]; strategy 1 is the first test of [find_files_loop], the
    only one followed by [continue]. *)

Definition strategy2 (fname : string) (entries : list string)
  (found_files : list string) : list string :=
  match find (ci_fullmatch fname) entries with
  | Some actual => found_files ++ [actual]
  | None => found_files
  end.

Definition strategy3 (fname : string) (bitstreams_dir : directory)
  (found_files : list string) : list string :=
  if String.eqb (path_suffix fname) "" then
    match find (fun ext => path_exists bitstreams_dir (fname ++ ext)%string)
               Config.ALLOWED_FILE_EXTENSIONS with
    | Some ext => found_files ++ [(fname ++ ext)%string]
    | None => found_files
    end
  else found_files.

Fixpoint find_files_loop (filenames : list string) (bitstreams_dir : directory)
  (found_files : list string) : result (list string) :=
  match filenames with
  | [] => Ok found_files
  | fname :: rest =>
      if path_exists bitstreams_dir fname
      then find_files_loop rest bitstreams_dir (found_files ++ [fname])
      else
        match iterdir bitstreams_dir with
        | Raise e => Raise e
        | Ok entries =>
            find_files_loop rest bitstreams_dir
              (strategy3 fname bitstreams_dir (strategy2 fname entries found_files))
        end
  end.

Definition find_files_for_item (filenames : list string) (bitstreams_dir : directory)
  : result (list string) :=
  find_files_loop filenames bitstreams_dir [].

(** *** sorted *)

Module StringOrder <: TotalLeBool.
Definition t := string.
Definition leb := String.leb.
Definition leb_total := String.leb_total.
End StringOrder.

Module StringSort := Sort StringOrder.

Definition sorted (l : list string) : list string := StringSort.sort l.

(** *** The state of a run *)

(** One package directory [OUTPUT_DIR/<n>]. *)
Record package : Type := mk_package {
  pk_xml : option (list dcvalue);      (* dublin_core.xml *)
  pk_contents : option (list string);  (* contents, line by line *)
  pk_files : list string               (* copied bitstreams *)
}.

Definition empty_package : package := mk_package None None [].

Definition tree : Type := nat -> option package.

Definition upd (t : tree) (n : nat) (p : package) : tree :=
  fun m => if m =? n then Some p else t m.

(** The entries of the log (file and console) that record a decision. *)
Inductive event : Type :=
| WarnMissingRequired (record : nat) (fields : list string)
| InfoCreatedFolder (n : nat)
| InfoCopied (fname : string)
| ErrorCopy (n : nat) (fname : string)
| WarnMissingFile (fname : string)
| InfoCompleted (n copied : nat)
| ErrorRecord (record : nat) (e : exn).

Record run : Type := mk_run {
  out : tree;
  log : list event;
  total_records : nat;
  total_files_copied : nat;
  total_missing_files : nat;
  error_count : nat
}.

(** What the operating system decides: the bitstream directory, which
    calls raise, and the order in which a [set] is iterated. *)
Record env : Type := mk_env {
  files_dir : directory;
  mkdir_fails : nat -> bool;
  xml_write_fails : nat -> bool;
  copy_fails : nat -> string -> bool;
  contents_open_fails : nat -> bool;
  set_order : list string -> list string
}.

(** State that survives an exception: a computation returns the state it
    reached together with its value or the exception raised there. *)
Definition M (A : Type) : Type := run -> run * result A.

Definition ret {A : Type} (a : A) : M A := fun st => (st, Ok a).

Definition bind {A B : Type} (m : M A) (k : A -> M B) : M B :=
  fun st =>
    match m st with
    | (st', Ok a) => k a st'
    | (st', Raise e) => (st', Raise e)
    end.

Definition raise {A : Type} (e : exn) : M A := fun st => (st, Raise e).

Definition gets {A : Type} (f : run -> A) : M A := fun st => (st, Ok (f st)).

Definition modify (f : run -> run) : M unit := fun st => (f st, Ok tt).

Definition lift {A : Type} (r : result A) : M A := fun st => (st, r).

(** [try: body / except Exception as e: handler(e)] *)
Definition try_except (body : M unit) (handler : exn -> M unit) : M unit :=
  fun st =>
    match body st with
    | (st', Ok tt) => (st', Ok tt)
    | (st', Raise e) => handler e st'
    end.

Notation "x <- m ;; k" := (bind m (fun x => k))
  (at level 61, m at next level, right associativity).
Notation "m ;; k" := (bind m (fun _ => k))
  (at level 61, right associativity).

Definition emit (e : event) : M unit :=
  modify (fun st => mk_run (out st) (log st ++ [e]) (total_records st)
                      (total_files_copied st) (total_missing_files st) (error_count st)).

Definition set_out (t : tree) : M unit :=
  modify (fun st => mk_run t (log st) (total_records st)
                      (total_files_copied st) (total_missing_files st) (error_count st)).

Definition incr_total_records : M unit :=
  modify (fun st => mk_run (out st) (log st) (total_records st + 1)
                      (total_files_copied st) (total_missing_files st) (error_count st)).

Definition incr_total_files_copied : M unit :=
  modify (fun st => mk_run (out st) (log st) (total_records st)
                      (total_files_copied st + 1) (total_missing_files st) (error_count st)).

Definition incr_total_missing_files : M unit :=
  modify (fun st => mk_run (out st) (log st) (total_records st)
                      (total_files_copied st) (total_missing_files st + 1) (error_count st)).

Definition incr_error_count : M unit :=
  modify (fun st => mk_run (out st) (log st) (total_records st)
                      (total_files_copied st) (total_missing_files st) (error_count st + 1)).

(** [safe_mkdir(item_dir)]: [mkdir(parents=True, exist_ok=True)]. *)
Definition safe_mkdir (E : env) (n : nat) : M unit :=
  if mkdir_fails E n then raise (OSError "mkdir")
  else
    t <- gets out ;;
    match t n with
    | Some _ => ret tt
    | None => set_out (upd t n empty_package)
    end.

(** Writing [item_dir / "dublin_core.xml"]. *)
Definition store_xml (E : env) (n : nat) (doc : list dcvalue) : M unit :=
  if xml_write_fails E n then raise (OSError "write dublin_core.xml")
  else
    t <- gets out ;;
    match t n with
    | Some p => set_out (upd t n (mk_package (Some doc) (pk_contents p) (pk_files p)))
    | None => raise (FileNotFoundError "dublin_core.xml")
    end.

(** [shutil.copy2(src, dst)] on success. *)
Definition store_file (n : nat) (fname : string) : M unit :=
  t <- gets out ;;
  match t n with
  | Some p =>
      set_out (upd t n (mk_package (pk_xml p) (pk_contents p)
                          (if str_in fname (pk_files p) then pk_files p
                           else pk_files p ++ [fname])))
  | None => ret tt
  end.

(** Writing [item_dir / "contents"]. *)
Definition store_contents (E : env) (n : nat) (lines : list string) : M unit :=
  if contents_open_fails E n then raise (OSError "open contents")
  else
    t <- gets out ;;
    match t n with
    | Some p => set_out (upd t n (mk_package (pk_xml p) (Some lines) (pk_files p)))
    | None => raise (FileNotFoundError "contents")
    end.

(** *** main, lines 298-424: one record *)

(** [row.get(col, "")] *)
Fixpoint row_get (columns : list string) (values : list pyval) (col : string) : pyval :=
  match columns, values with
  | c :: columns', v :: values' =>
      if String.eqb c col then v else row_get columns' values' col
  | _, _ => PStr ""
  end.

(** The class [[;\n|,]]. *)
Definition token_sep (c : ascii) : bool :=
  Ascii.eqb c ";" || Ascii.eqb c newline || Ascii.eqb c "|" || Ascii.eqb c ",".

(** [filenames.add(p)], the set kept as a list without repetition. *)
Definition set_add (p : string) (filenames : list string) : list string :=
  if str_in p filenames then filenames else filenames ++ [p].

Definition add_parts (parts : list string) (filenames : list string) : list string :=
  fold_left
    (fun fs part =>
       let p := basename_only (PyStr.strip part) in
       if negb (String.eqb p "") && negb (str_in (PyStr.lower p) [""; "none"; "nan"])
       then set_add p fs else fs)
    parts filenames.

Definition gather_filenames (columns : list string) (values : list pyval)
  (filename_cols : list string) : list string :=
  fold_left
    (fun fs col =>
       let raw := row_get columns values col in
       if is_blank raw then fs
       else add_parts (PyStr.re_split token_sep (py_str raw)) fs)
    filename_cols [].

(** [filenames - set(found_files)] *)
Definition set_minus (filenames found_files : list string) : list string :=
  filter (fun f => negb (str_in f found_files)) filenames.

Fixpoint copy_loop (E : env) (n : nat) (found_files : list string)
  (copied : list string) : M (list string) :=
  match found_files with
  | [] => ret copied
  | fname :: rest =>
      if copy_fails E n fname
      then emit (ErrorCopy n fname) ;; copy_loop E n rest copied
      else
        store_file n fname ;;
        incr_total_files_copied ;;
        emit (InfoCopied fname) ;;
        copy_loop E n rest (copied ++ [fname])
  end.

Fixpoint missing_loop (missing_files : list string) : M unit :=
  match missing_files with
  | [] => ret tt
  | fname :: rest =>
      incr_total_missing_files ;;
      emit (WarnMissingFile fname) ;;
      missing_loop rest
  end.

(** The body of the [try] statement, lines 348-403, for the record of index
    [idx]; the package number is the value of [total_records]. *)
Definition record_body (E : env) (columns filename_cols : list string)
  (idx : nat) (row : list pyval) : M unit :=
  let missing_fields := validate_required_fields (map Some columns) row in
  (match missing_fields with
   | [] => ret tt
   | _ => emit (WarnMissingRequired (idx + 1) missing_fields)
   end) ;;
  n <- gets total_records ;;
  safe_mkdir E n ;;
  emit (InfoCreatedFolder n) ;;
  store_xml E n (write_dc_xml (map Some columns) row) ;;
  let filenames := gather_filenames columns row filename_cols in
  found_files <- lift (find_files_for_item (set_order E filenames) (files_dir E)) ;;
  let missing_files := set_minus filenames found_files in
  copied <- copy_loop E n found_files [] ;;
  missing_loop (set_order E missing_files) ;;
  store_contents E n (sorted copied) ;;
  emit (InfoCompleted n (List.length copied)).

(** The [except Exception] clause, lines 405-408. *)
Definition record_handler (idx : nat) (e : exn) : M unit :=
  emit (ErrorRecord (idx + 1) e) ;;
  incr_error_count.

Definition process_record (E : env) (columns filename_cols : list string)
  (idx : nat) (row : list pyval) : M unit :=
  incr_total_records ;;
  try_except (record_body E columns filename_cols idx row) (record_handler idx).

(** The loop [for idx, row in df.iterrows()], rows numbered from [idx]. *)
Fixpoint records_loop (E : env) (columns filename_cols : list string)
  (idx : nat) (rows : list (list pyval)) : M unit :=
  match rows with
  | [] => ret tt
  | row :: rest =>
      process_record E columns filename_cols idx row ;;
      records_loop E columns filename_cols (S idx) rest
  end.

Definition initial_run (t : tree) : run := mk_run t [] 0 0 0 0.

(** [main] once the sheet is loaded: [columns] are the cleaned column
    labels and [rows] the data rows under the header. *)
Definition main (E : env) (columns : list string) (rows : list (list pyval))
  (t : tree) : run * result unit :=
  records_loop E columns (detect_filename_columns (map Some columns)) 0 rows
    (initial_run t).

(** ** validate_saf.py

    [validate_item] is lines 11-62, the loop of [main] lines 79-80. *)

Module Validate.

Definition REQUIRED_FIELDS : list string := ["title"; "creator"; "date.issued"].

(** A child of the root element as [ElementTree] gives it. *)
Record xml_node : Type := mk_node {
  tag : string;
  attr_element : option string;
  attr_qualifier : option string;
  text : option string
}.

(** [ET.parse(dc_path)]: a parse error, or the children of the root. *)
Inductive xml_file : Type :=
| Malformed (message : string)
| Parsed (children : list xml_node).

(** A package directory as the validator sees it: its two files when
    they exist, the manifest line by line, and [(item_dir / f).exists()]. *)
Record item : Type := mk_item {
  item_name : string;
  dublin_core : option xml_file;
  contents : option (list string);
  has_file : string -> bool
}.

Inductive issue : Type :=
| MissingDublinCore
| InvalidXML (message : string)
| MissingRequired (field : string)
| MissingContents
| ListedButMissing (fname : string).

Definition report : Type := list (string * list issue).

(** [found_fields[key] = True] on a dict kept in insertion order. *)
Fixpoint dict_set (d : list (string * bool)) (key : string) : list (string * bool) :=
  match d with
  | [] => [(key, true)]
  | (k, v) :: rest =>
      if String.eqb k key then (k, true) :: rest else (k, v) :: dict_set rest key
  end.

Definition scan_node (found_fields : list (string * bool)) (dcvalue : xml_node)
  : list (string * bool) :=
  let t := match text dcvalue with
           | Some x => PyStr.strip x
           | None => ""
           end in
  if String.eqb t "" then found_fields
  else if opt_is (attr_element dcvalue) "title" then dict_set found_fields "title"
  else if opt_is (attr_element dcvalue) "creator" then dict_set found_fields "creator"
  else if opt_is (attr_element dcvalue) "date" && opt_is (attr_qualifier dcvalue) "issued"
       then dict_set found_fields "date.issued"
  else found_fields.

(** The loop over the lines of the manifest; [line.strip().split()[0]]
    raises [IndexError] on a line without a word. *)
Fixpoint check_lines (it : item) (lines : list string) (issues : list issue)
  : result (list issue) :=
  match lines with
  | [] => Ok issues
  | line :: rest =>
      match PyStr.first_word (PyStr.strip line) with
      | None => Raise IndexError
      | Some fname =>
          if has_file it fname then check_lines it rest issues
          else check_lines it rest (issues ++ [ListedButMissing fname])
      end
  end.

(** [validate_item(item_dir, report)]: the report after the call, or the
    exception that leaves the call. *)
Definition validate_item (it : item) (rep : report) : result report :=
  match dublin_core it with
  | None => Ok (rep ++ [(item_name it, [MissingDublinCore])])
  | Some (Malformed message) => Ok (rep ++ [(item_name it, [InvalidXML message])])
  | Some (Parsed children) =>
      let found_fields :=
        fold_left scan_node
          (filter (fun c => String.eqb (tag c) "dcvalue") children)
          (map (fun field => (field, false)) REQUIRED_FIELDS) in
      let issues :=
        map (fun fo => MissingRequired (fst fo))
            (filter (fun fo => negb (snd fo)) found_fields) in
      match
        match contents it with
        | None => Ok (issues ++ [MissingContents])
        | Some lines => check_lines it lines issues
        end
      with
      | Raise e => Raise e
      | Ok [] => Ok rep
      | Ok issues' => Ok (rep ++ [(item_name it, issues')])
      end
  end.

(** The loop of [main] over the package directories, already sorted. *)
Fixpoint validate_all (items : list item) (rep : report) : result report :=
  match items with
  | [] => Ok rep
  | it :: rest =>
      match validate_item it rep with
      | Ok rep' => validate_all rest rep'
      | Raise e => Raise e
      end
  end.

End Validate.

(** ** The specification's reading of two components

    These definitions follow the words of the specification, not the code;
    the theorems below compare them with the code. *)

Module Spec.

(** The index of the first element of [l] that satisfies [p]. *)
Fixpoint first_index {A : Type} (p : A -> bool) (l : list A) : option nat :=
  match l with
  | [] => None
  | x :: r =>
      if p x then Some 0
      else match first_index p r with
           | Some i => Some (S i)
           | None => None
           end
  end.

Definition greatest_count (rows : list (list pyval)) : nat :=
  fold_right Nat.max 0 (map dc_count rows).

(** Section 4.1: the first row with a filename-like cell and a
    prefix-count of 2 at least; failing that the first row that reaches the
    greatest prefix-count, when that count is positive; failing that 0. *)
Definition header_row (rows : list (list pyval)) : nat :=
  match first_index (fun row => has_filename row && (2 <=? dc_count row)) rows with
  | Some i => i
  | None =>
      let m := greatest_count rows in
      if 0 <? m then
        match first_index (fun row => dc_count row =? m) rows with
        | Some i => i
        | None => 0
        end
      else 0
  end.

(** Section 4.3: a required specifier is a bare element or an element with
    a qualifier. *)
Inductive specifier : Type :=
| Bare (element : string)
| Qualified (element qualifier : string).

Definition render (sp : specifier) : string :=
  match sp with
  | Bare e => e
  | Qualified e q => (e ++ "." ++ q)%string
  end.

Definition dot_free (s : string) : Prop := PyStr.has_char "." s = false.

Definition well_formed (sp : specifier) : Prop :=
  match sp with
  | Bare e => dot_free e
  | Qualified e q => dot_free e /\ dot_free q
  end.

(** The column is metadata-bearing, its cell is not blank, and it
    decomposes to the element of the specifier and, when the specifier has
    one, to its qualifier. *)
Definition column_satisfies (sp : specifier) (col : option string) (val : pyval) : Prop :=
  is_blank val = false /\
  is_dc_column (Some (base_header (Some (norm_header col)))) = true /\
  match sp with
  | Bare e => fst (parse_dc (Some (base_header (Some (norm_header col))))) = Some e
  | Qualified e q =>
      parse_dc (Some (base_header (Some (norm_header col)))) = (Some e, Some q)
  end.

Definition satisfied (sp : specifier) (columns : list (option string))
  (row_values : list pyval) : Prop :=
  exists col val,
    In (col, val) (combine columns row_values) /\ column_satisfies sp col val.

End Spec.

(** ** Relations between states of a run *)

(** Nothing of [p] is missing from [p']: a file that exists still exists. *)
Definition package_kept (p p' : package) : Prop :=
  (pk_xml p <> None -> pk_xml p' <> None) /\
  (pk_contents p <> None -> pk_contents p' <> None) /\
  incl (pk_files p) (pk_files p').

(** Every package directory of [t] is still in [t'] with what it held. *)
Definition tree_kept (t t' : tree) : Prop :=
  forall n p, t n = Some p -> exists p', t' n = Some p' /\ package_kept p p'.

Definition is_record_error (e : event) : bool :=
  match e with
  | ErrorRecord _ _ => true
  | _ => false
  end.

Definition record_errors (l : list event) : nat :=
  List.length (filter is_record_error l).

(** The state in which the loop goes on after the body of a record ended
    in [r] and state [st]: as it is on success; with the error logged and
    counted, and nothing else changed, on an exception. *)
Definition after_record (idx : nat) (st : run) (r : result unit) : run :=
  match r with
  | Ok _ => st
  | Raise e =>
      mk_run (out st) (log st ++ [ErrorRecord (idx + 1) e]) (total_records st)
        (total_files_copied st) (total_missing_files st) (error_count st + 1)
  end.

(** An environment in which no call fails and sets are iterated in
    insertion order. *)
Definition quiet_env (d : directory) : env :=
  mk_env d (fun _ => false) (fun _ => false) (fun _ _ => false) (fun _ => false)
    (fun l => l).

Definition no_tree : tree := fun _ => None.

(** A sheet of two columns and the first record of a run, for the
    examples. *)
Definition demo_columns : list string := ["dc.title"; "Filename"].

Definition demo_row : list pyval := [PStr "A title"; PStr "b.pdf; a.pdf; zz.pdf"].

Definition demo_env : env := quiet_env (Some ["b.pdf"; "a.pdf"]).

Definition demo_state : run := fst (incr_total_records (initial_run no_tree)).

(** The relation [R] holds between the state before and the state after
    [m], whatever the state before. *)
Definition preserves (R : run -> run -> Prop) {A : Type} (m : M A) : Prop :=
  forall st, R st (fst (m st)).

(** Three relations that the body of a record preserves. *)
Definition same_total (st st' : run) : Prop := total_records st' = total_records st.

Definition errors_logged (st st' : run) : Prop :=
  error_count st' + record_errors (log st) = error_count st + record_errors (log st').

Definition output_kept (st st' : run) : Prop := tree_kept (out st) (out st').

(** The test the loop body applies to one column. *)
Definition column_hit (element : string) (col : option string) (val : pyval) : bool :=
  negb (is_blank val) &&
  is_dc_column (Some (base_header (Some (norm_header col)))) &&
  opt_is (fst (parse_dc (Some (base_header (Some (norm_header col))))))
         (hd "" (PyStr.split "." element)) &&
  (negb (PyStr.has_char "." element) ||
   opt_is (snd (parse_dc (Some (base_header (Some (norm_header col))))))
          (nth 1 (PyStr.split "." element) "")).

(** What the scan remembers after the rows [pre], none of which was
    returned: nothing yet, or the greatest count and the first row that
    reaches it. *)
Definition scan_memory (pre : list (list pyval)) (best_idx : option nat)
  (best_dc_count : Z) : Prop :=
  (pre = [] /\ best_idx = None /\ best_dc_count = (-1)%Z) \/
  (pre <> [] /\
   best_dc_count = Z.of_nat (Spec.greatest_count pre) /\
   best_idx = Spec.first_index (fun row => dc_count row =? Spec.greatest_count pre) pre).

(** ** Notions used by the further properties *)

(** Every character of [s] satisfies [p]. *)
Definition all_chars (p : ascii -> bool) (s : string) : Prop :=
  forall c, In c (list_ascii_of_string s) -> p c = true.

(** What [main] accepts as a token. *)
Definition token_ok (t : string) : Prop :=
  t <> "" /\
  PyStr.has_char "/" t = false /\
  all_chars (fun c => negb (token_sep c)) t /\
  str_in (PyStr.lower t) ["none"; "nan"] = false.

(** [lstrip] on the list of characters. *)
Fixpoint lstripL (l : list ascii) : list ascii :=
  match l with
  | [] => []
  | c :: r => if PyStr.isspace c then lstripL r else l
  end.

(** The list is empty or begins with a character that is not whitespace. *)
Definition first_ok (l : list ascii) : Prop :=
  match l with
  | [] => True
  | c :: _ => PyStr.isspace c = false
  end.

(** The node has the element of the specifier and, when the specifier has
    one, its qualifier. *)
Definition node_matches (sp : Spec.specifier) (d : dcvalue) : Prop :=
  match sp with
  | Spec.Bare e => dc_element d = e
  | Spec.Qualified e q => dc_element d = e /\ dc_qualifier d = q
  end.

(** The qualifier of the specifier is neither empty nor the word the
    writer uses for an absent qualifier. *)
Definition qualifier_given (sp : Spec.specifier) : Prop :=
  match sp with
  | Spec.Bare _ => True
  | Spec.Qualified _ q => q <> "" /\ q <> "none"
  end.








(** ** String lemmas *)

Lemma chars_append (a b : string) :
  list_ascii_of_string (a ++ b) = list_ascii_of_string a ++ list_ascii_of_string b.
Proof.
  induction a as [|c a IH]; simpl; [reflexivity|]. now rewrite IH.
Qed.

Lemma drop_digits_app (ds : list ascii) (c : ascii) (p : list ascii) :
  forallb PyStr.isdigit ds = true ->
  PyStr.isdigit c = false ->
  drop_digits (ds ++ c :: p) = c :: p.
Proof.
  intros Hds Hc. induction ds as [|d ds IH]; simpl.
  - now rewrite Hc.
  - simpl in Hds. apply andb_prop in Hds as [Hd Hds]. rewrite Hd. now apply IH.
Qed.

Lemma dot_digits_tail_app (ds p : list ascii) :
  ds <> [] ->
  forallb PyStr.isdigit ds = true ->
  dot_digits_tail (ds ++ "."%char :: p) = Some p.
Proof.
  intros Hne Hds. unfold dot_digits_tail.
  destruct ds as [|d ds]; [contradiction|].
  change ((d :: ds) ++ "."%char :: p) with (d :: (ds ++ "."%char :: p)).
  pose proof Hds as Hds'. simpl in Hds'. apply andb_prop in Hds' as [Hd _].
  rewrite Hd.
  change (d :: (ds ++ "."%char :: p)) with ((d :: ds) ++ "."%char :: p).
  rewrite drop_digits_app by (assumption || reflexivity).
  reflexivity.
Qed.

(** [base_header] removes a final [.<digits>] whatever precedes it. *)
Lemma base_header_numeric_suffix (p ds : string) :
  ds <> "" ->
  forallb PyStr.isdigit (list_ascii_of_string ds) = true ->
  base_header (Some (p ++ "." ++ ds)%string) = p.
Proof.
  intros Hne Hds. unfold base_header.
  rewrite !chars_append. simpl list_ascii_of_string.
  rewrite rev_app_distr. simpl List.rev. rewrite <- app_assoc. simpl app.
  rewrite dot_digits_tail_app.
  - rewrite rev_involutive. apply string_of_list_ascii_of_string.
  - intros H. apply Hne. destruct ds; [reflexivity|].
    simpl in H. apply app_eq_nil in H as [_ H]. discriminate.
  - rewrite forallb_forall in *. intros x Hx. apply Hds. now apply in_rev.
Qed.

Lemma nonblank_text (val : pyval) :
  is_blank val = false -> String.eqb (PyStr.strip (py_str val)) "" = false.
Proof.
  destruct val as [| |s]; simpl; try discriminate.
  intros H. apply orb_false_elim in H as [H _].
  apply String.eqb_neq in H. apply String.eqb_neq.
  intros E. apply H. now rewrite E.
Qed.

(** ** The metadata writer *)

Lemma triple_eqb_refl (t : triple) : triple_eqb t t = true.
Proof.
  destruct t as [[e q] x]. unfold triple_eqb. now rewrite !String.eqb_refl.
Qed.

Lemma triple_of_node (t : triple) : triple_of (node_of t) = t.
Proof. now destruct t as [[e q] x]. Qed.



(** ** Repeat suffixes *)

(** C9: when the canonical name of a column is [p] followed by a dot and
    digits, the base form is [p], and the element and qualifier of the
    field written for the column are those of [p]: the digits never reach
    the qualifier.  "dc.date.2024" is written with element "date" and
    qualifier "none". *)
Theorem numeric_suffix_never_in_qualifier :
  (forall (col : option string) (p ds : string) (val : pyval),
     norm_header col = (p ++ "." ++ ds)%string ->
     ds <> "" ->
     forallb PyStr.isdigit (list_ascii_of_string ds) = true ->
     base_header (Some (norm_header col)) = p /\
     (forall trip : triple,
        column_triple col val = Some trip ->
        exists element qualifier,
          parse_dc (Some p) = (Some element, qualifier) /\
          trip = (element, or_none qualifier, PyStr.strip (py_str val)))) /\
  (forall val : pyval,
     is_blank val = false ->
     write_dc_xml [Some "dc.date.2024"] [val] =
     [mk_dcvalue "date" "none" "en" (PyStr.strip (py_str val))]).
Proof.
  split.
  - intros col p ds val Hcol Hne Hds.
    assert (Hbase : base_header (Some (norm_header col)) = p).
    { rewrite Hcol. now apply base_header_numeric_suffix. }
    split; [exact Hbase|].
    intros trip. unfold column_triple. rewrite Hbase.
    destruct (is_blank val); [discriminate|].
    destruct col as [c|]; [|discriminate].
    destruct (negb (is_dc_column (Some p))); [discriminate|].
    destruct (parse_dc (Some p)) as [[element|] qualifier]; [|discriminate].
    destruct (String.eqb (PyStr.strip (py_str val)) ""); [discriminate|].
    intros H. injection H as <-. now exists element, qualifier.
  - intros val Hb. unfold write_dc_xml, write_dc_loop, column_triple.
    rewrite Hb.
    replace (base_header (Some (norm_header (Some "dc.date.2024")))) with "dc.date"
      by reflexivity.
    replace (is_dc_column (Some "dc.date")) with true by reflexivity.
    replace (parse_dc (Some "dc.date")) with (Some "date", @None string)
      by reflexivity.
    cbn [negb or_none]. rewrite (nonblank_text val Hb). reflexivity.
Qed.

Lemma numeric_suffix_never_in_qualifier_witness :
  base_header (Some (norm_header (Some "dc.date.2024"))) = "dc.date" /\
  (forall trip : triple,
     column_triple (Some "dc.date.2024") (PStr "1999") = Some trip ->
     exists element qualifier,
       parse_dc (Some "dc.date") = (Some element, qualifier) /\
       trip = (element, or_none qualifier, PyStr.strip (py_str (PStr "1999")))).
Proof.
  apply (proj1 numeric_suffix_never_in_qualifier (Some "dc.date.2024") "dc.date" "2024"
           (PStr "1999")).
  - reflexivity.
  - discriminate.
  - reflexivity.
Defined.

(** ** The required-field checker *)

Lemma split_dot_free (e : string) :
  Spec.dot_free e -> PyStr.split "." e = [e].
Proof.
  unfold Spec.dot_free. induction e as [|c e IH]; simpl; [reflexivity|].
  intros H. apply orb_false_elim in H as [Hc He].
  rewrite Hc, (IH He). reflexivity.
Qed.

Lemma split_qualified (e q : string) :
  Spec.dot_free e ->
  PyStr.split "." (e ++ String "." q)%string = e :: PyStr.split "." q.
Proof.
  unfold Spec.dot_free. induction e as [|c e IH]; simpl; [reflexivity|].
  intros H. apply orb_false_elim in H as [Hc He].
  rewrite Hc, (IH He). reflexivity.
Qed.

Lemma has_char_qualified (e q : string) :
  PyStr.has_char "." (e ++ String "." q)%string = true.
Proof.
  induction e as [|c e IH]; simpl; [reflexivity|].
  rewrite IH. apply orb_true_r.
Qed.

Lemma opt_is_true (o : option string) (s : string) :
  opt_is o s = true <-> o = Some s.
Proof.
  destruct o as [x|]; simpl.
  - rewrite String.eqb_eq. split; [now intros ->|now intros [= ->]].
  - split; discriminate.
Qed.

Lemma field_found_cons (element : string) (col : option string) (val : pyval)
  (columns : list (option string)) (row_values : list pyval) :
  field_found element (col :: columns) (val :: row_values) =
  column_hit element col val || field_found element columns row_values.
Proof.
  unfold column_hit. cbn [field_found].
  destruct (is_blank val); [reflexivity|].
  generalize (base_header (Some (norm_header col))). intros base.
  destruct (is_dc_column (Some base)); [|reflexivity].
  destruct (parse_dc (Some base)) as [en q].
  cbn [negb andb fst snd].
  destruct (opt_is en (hd "" (PyStr.split "." element))); [|reflexivity].
  destruct (PyStr.has_char "." element); cbn [negb andb orb]; [|reflexivity].
  destruct (opt_is q (nth 1 (PyStr.split "." element) "")); reflexivity.
Qed.

Lemma field_found_exists (element : string) (columns : list (option string)) :
  forall row_values : list pyval,
    field_found element columns row_values = true <->
    exists col val,
      In (col, val) (combine columns row_values) /\ column_hit element col val = true.
Proof.
  induction columns as [|col columns IH]; intros row_values.
  - simpl. split; [discriminate|]. now intros (c & v & [] & _).
  - destruct row_values as [|val row_values].
    + simpl. split; [discriminate|]. now intros (c & v & [] & _).
    + rewrite field_found_cons, orb_true_iff, IH. simpl. split.
      * intros [H|(c & v & Hin & H)].
        -- exists col, val. auto.
        -- exists c, v. auto.
      * intros (c & v & [E|Hin] & H).
        -- injection E as <- <-. now left.
        -- right. now exists c, v.
Qed.

Lemma column_hit_satisfies (sp : Spec.specifier) (col : option string) (val : pyval) :
  Spec.well_formed sp ->
  column_hit (Spec.render sp) col val = true <-> Spec.column_satisfies sp col val.
Proof.
  intros Hwf. unfold column_hit, Spec.column_satisfies.
  rewrite !andb_true_iff, negb_true_iff, orb_true_iff, negb_true_iff, !opt_is_true.
  destruct (parse_dc (Some (base_header (Some (norm_header col))))) as [en q].
  cbn [fst snd].
  destruct sp as [e|e qf]; cbn [Spec.render Spec.well_formed] in *.
  - rewrite (split_dot_free e Hwf). cbn [hd]. unfold Spec.dot_free in Hwf.
    rewrite Hwf. tauto.
  - destruct Hwf as [He Hq].
    change (e ++ "." ++ qf)%string with (e ++ String "." qf)%string.
    rewrite (split_qualified e qf He), (split_dot_free qf Hq), has_char_qualified.
    cbn [hd nth]. split.
    + intros [[[Hb Hdc] Hen] [Hf|Hqf]]; [discriminate|]. now subst.
    + intros (Hb & Hdc & [= -> ->]). auto.
Qed.

Lemma field_found_satisfied (sp : Spec.specifier) (columns : list (option string))
  (row_values : list pyval) :
  Spec.well_formed sp ->
  field_found (Spec.render sp) columns row_values = true <->
  Spec.satisfied sp columns row_values.
Proof.
  intros Hwf. rewrite field_found_exists. unfold Spec.satisfied.
  split; intros (c & v & Hin & H); exists c, v; split; try assumption;
    now apply (column_hit_satisfies sp c v Hwf).
Qed.

Lemma filter_map_commute {A B : Type} (f : A -> B) (p : B -> bool) (l : list A) :
  filter p (map f l) = map f (filter (fun x => p (f x)) l).
Proof.
  induction l as [|x l IH]; simpl; [reflexivity|].
  destruct (p (f x)); simpl; now rewrite IH.
Qed.

(** C7: for a list of required specifiers, each a bare element or an
    element with a qualifier, the checker returns the specifiers of the
    list, in order, that no column of the record satisfies: a column
    satisfies a specifier when it is metadata-bearing, its cell is not
    blank and it decomposes to the element (and the qualifier, when given).
    The checker is a total function.  A record with a title and a creator
    and no date issued is reported to miss date.issued and nothing else. *)
Theorem required_fields_exactly_unsatisfied :
  (forall (required : list Spec.specifier) (columns : list (option string))
          (row_values : list pyval),
     Forall Spec.well_formed required ->
     exists keep : Spec.specifier -> bool,
       required_fields_missing (map Spec.render required) columns row_values =
       map Spec.render (filter keep required) /\
       (forall sp, In sp required ->
                   (keep sp = true <-> ~ Spec.satisfied sp columns row_values))) /\
  (forall title creator : string,
     is_blank (PStr title) = false ->
     is_blank (PStr creator) = false ->
     validate_required_fields [Some "dc.title"; Some "dc.creator"]
       [PStr title; PStr creator] = ["date.issued"]).
Proof.
  split.
  - intros required columns row_values Hwf.
    exists (fun sp => negb (field_found (Spec.render sp) columns row_values)).
    split.
    + unfold required_fields_missing.
      apply (filter_map_commute Spec.render
               (fun element => negb (field_found element columns row_values))).
    + intros sp Hin. rewrite Forall_forall in Hwf.
      rewrite negb_true_iff, <- (field_found_satisfied sp columns row_values (Hwf sp Hin)).
      destruct (field_found (Spec.render sp) columns row_values); split;
        congruence.
  - intros title creator Ht Hc.
    unfold validate_required_fields, required_fields_missing, Config.REQUIRED_FIELDS.
    cbn [filter]. rewrite !field_found_cons. unfold column_hit. rewrite Ht, Hc.
    replace (base_header (Some (norm_header (Some "dc.title")))) with "dc.title"
      by reflexivity.
    replace (base_header (Some (norm_header (Some "dc.creator")))) with "dc.creator"
      by reflexivity.
    reflexivity.
Qed.

Lemma required_fields_exactly_unsatisfied_witness :
  exists keep : Spec.specifier -> bool,
    required_fields_missing
      (map Spec.render [Spec.Bare "title"; Spec.Bare "creator"; Spec.Qualified "date" "issued"])
      [Some "dc.title"; Some "dc.date.issued.2"] [PStr "A title"; PStr "2001"] =
    map Spec.render
      (filter keep [Spec.Bare "title"; Spec.Bare "creator"; Spec.Qualified "date" "issued"]) /\
    (forall sp,
       In sp [Spec.Bare "title"; Spec.Bare "creator"; Spec.Qualified "date" "issued"] ->
       (keep sp = true <->
        ~ Spec.satisfied sp [Some "dc.title"; Some "dc.date.issued.2"]
            [PStr "A title"; PStr "2001"])).
Proof.
  apply (proj1 required_fields_exactly_unsatisfied).
  repeat constructor; reflexivity.
Defined.

(** ** The header detector *)

Section FirstIndex.

Context {A : Type} (p : A -> bool).

Lemma first_index_None (l : list A) :
  Spec.first_index p l = None <-> forall x, In x l -> p x = false.
Proof.
  induction l as [|a l IH]; simpl.
  - split; [intros _ x []|reflexivity].
  - destruct (p a) eqn:Ha.
    + split; [discriminate|]. intros H. rewrite (H a) in Ha by now left.
      discriminate.
    + destruct (Spec.first_index p l) as [i|].
      * split; [discriminate|]. intros H.
        assert (Some i = None) as E by (apply IH; intros x Hx; apply H; now right).
        discriminate.
      * split; [|reflexivity]. intros _ x [<-|Hx]; [exact Ha|].
        now apply (proj1 IH).
Qed.

Lemma first_index_Some (l : list A) :
  forall i, Spec.first_index p l = Some i ->
    (exists x, nth_error l i = Some x /\ p x = true) /\
    (forall j y, j < i -> nth_error l j = Some y -> p y = false).
Proof.
  induction l as [|a l IH]; simpl; intros i H; [discriminate|].
  destruct (p a) eqn:Ha.
  - injection H as <-. split; [now exists a|]. intros j y Hj. lia.
  - destruct (Spec.first_index p l) as [k|]; [|discriminate].
    injection H as <-. destruct (IH k eq_refl) as [Hx Hlt]. split; [exact Hx|].
    intros [|j] y Hj; simpl.
    + now intros [= <-].
    + apply Hlt. lia.
Qed.

Lemma first_index_app (l1 l2 : list A) :
  Spec.first_index p (l1 ++ l2) =
  match Spec.first_index p l1 with
  | Some i => Some i
  | None => option_map (fun i => List.length l1 + i) (Spec.first_index p l2)
  end.
Proof.
  induction l1 as [|a l1 IH]; simpl.
  - now destruct (Spec.first_index p l2).
  - destruct (p a); [reflexivity|]. rewrite IH.
    destruct (Spec.first_index p l1); [reflexivity|].
    now destruct (Spec.first_index p l2).
Qed.

End FirstIndex.

Lemma greatest_count_snoc (pre : list (list pyval)) (row : list pyval) :
  Spec.greatest_count (pre ++ [row]) = Nat.max (Spec.greatest_count pre) (dc_count row).
Proof.
  unfold Spec.greatest_count. induction pre as [|a pre IH]; simpl; [lia|].
  rewrite IH. lia.
Qed.

Lemma greatest_count_bound (pre : list (list pyval)) (row : list pyval) :
  In row pre -> dc_count row <= Spec.greatest_count pre.
Proof.
  unfold Spec.greatest_count. induction pre as [|a pre IH]; simpl; [intros []|].
  intros [<-|H]; [lia|]. specialize (IH H). lia.
Qed.

Lemma greatest_count_reached (pre : list (list pyval)) :
  pre <> [] ->
  exists i, Spec.first_index (fun row => dc_count row =? Spec.greatest_count pre) pre = Some i.
Proof.
  intros Hne.
  destruct (Spec.first_index (fun row => dc_count row =? Spec.greatest_count pre) pre)
    as [i|] eqn:E; [now exists i|].
  exfalso. rewrite first_index_None in E.
  assert (H : forall l : list (list pyval), l <> [] ->
            exists row, In row l /\ dc_count row = Spec.greatest_count l).
  { clear. unfold Spec.greatest_count.
    induction l as [|a l IH]; [congruence|]. intros _.
    destruct l as [|b l].
    - exists a. simpl. split; [now left|lia].
    - destruct IH as (row & Hin & Hrow); [discriminate|].
      change (fold_right Nat.max 0 (map dc_count (a :: b :: l)))
        with (Nat.max (dc_count a) (fold_right Nat.max 0 (map dc_count (b :: l)))).
      destruct (Nat.max_spec (dc_count a) (fold_right Nat.max 0 (map dc_count (b :: l))))
        as [[_ ->]|[_ ->]].
      + exists row. split; [now right|exact Hrow].
      + exists a. split; [now left|reflexivity]. }
  destruct (H pre Hne) as (row & Hin & Hrow).
  specialize (E row Hin). simpl in E. rewrite Hrow, Nat.eqb_refl in E. discriminate.
Qed.

Lemma header_scan_refines (rows : list (list pyval)) :
  forall (pre : list (list pyval)) (best_idx : option nat) (best_dc_count : Z),
    Spec.first_index (fun row => has_filename row && (2 <=? dc_count row)) pre = None ->
    scan_memory pre best_idx best_dc_count ->
    header_scan rows (List.length pre) best_idx best_dc_count = Spec.header_row (pre ++ rows).
Proof.
  induction rows as [|row rows IH]; intros pre bi bc Hgood Hmem.
  - rewrite app_nil_r. unfold Spec.header_row. rewrite Hgood. simpl.
    destruct Hmem as [(-> & -> & ->)|(Hne & -> & ->)]; [reflexivity|].
    generalize (Spec.greatest_count pre). intros m.
    destruct (Spec.first_index (fun row => dc_count row =? m) pre) as [b|];
      destruct m; reflexivity.
  - cbn [header_scan].
    destruct (has_filename row && (2 <=? dc_count row)) eqn:Hrow.
    + unfold Spec.header_row. rewrite first_index_app, Hgood.
      cbn [Spec.first_index]. rewrite Hrow. cbn [option_map]. lia.
    + assert (Hgood' : Spec.first_index
                (fun row => has_filename row && (2 <=? dc_count row)) (pre ++ [row]) = None).
      { rewrite first_index_app, Hgood. cbn [Spec.first_index].
        now rewrite Hrow. }
      replace (pre ++ row :: rows) with ((pre ++ [row]) ++ rows)
        by (rewrite <- app_assoc; reflexivity).
      replace (S (List.length pre)) with (List.length (pre ++ [row]))
        by (rewrite length_app; simpl; lia).
      destruct (bc <? Z.of_nat (dc_count row))%Z eqn:Hlt.
      * apply Z.ltb_lt in Hlt. apply IH; [exact Hgood'|]. right.
        split; [now destruct pre|].
        rewrite greatest_count_snoc.
        assert (Hmax : Nat.max (Spec.greatest_count pre) (dc_count row) = dc_count row).
        { destruct Hmem as [(-> & _ & _)|(_ & -> & _)]; [reflexivity|lia]. }
        rewrite Hmax. split; [reflexivity|].
        rewrite first_index_app.
        assert (Hnone : Spec.first_index (fun r => dc_count r =? dc_count row) pre = None).
        { apply first_index_None. intros x Hx. apply Nat.eqb_neq.
          destruct Hmem as [(-> & _ & _)|(_ & -> & _)]; [destruct Hx|].
          pose proof (greatest_count_bound pre x Hx). lia. }
        rewrite Hnone. cbn [Spec.first_index]. rewrite Nat.eqb_refl.
        cbn [option_map]. f_equal. lia.
      * apply Z.ltb_ge in Hlt. apply IH; [exact Hgood'|]. right.
        destruct Hmem as [(-> & _ & ->)|(Hne & -> & ->)]; [lia|].
        split; [now destruct pre|].
        rewrite greatest_count_snoc.
        replace (Nat.max (Spec.greatest_count pre) (dc_count row))
          with (Spec.greatest_count pre) by lia.
        split; [reflexivity|].
        rewrite first_index_app.
        destruct (greatest_count_reached pre Hne) as [i ->]. reflexivity.
Qed.

(** C3: over the rows scanned, the detector returns the index the
    specification describes: the first row with a filename-like cell and
    two prefixed cells at least; else the first row reaching the greatest
    prefix-count when that count is positive; else 0.  Four rows with
    prefix-counts 0, 1, 3, 2 and no filename-like cell give index 2. *)
Theorem find_header_row_refines_spec :
  (forall (sheet : list (list pyval)) (max_scan : nat),
     find_header_row sheet max_scan = Spec.header_row (firstn max_scan sheet)) /\
  (forall rows : list (list pyval),
     map dc_count rows = [0; 1; 3; 2] ->
     forallb (fun row => negb (has_filename row)) rows = true ->
     find_header_row rows Config.MAX_HEADER_SCAN = 2).
Proof.
  assert (Hmain : forall sheet max_scan,
             find_header_row sheet max_scan = Spec.header_row (firstn max_scan sheet)).
  { intros sheet max_scan. unfold find_header_row.
    apply (header_scan_refines (firstn max_scan sheet) [] None (-1)%Z);
      [reflexivity|now left]. }
  split; [exact Hmain|].
  intros rows Hcounts Hnames.
  destruct rows as [|r0 [|r1 [|r2 [|r3 [|r4 rows]]]]]; try discriminate.
  injection Hcounts as H0 H1 H2 H3.
  simpl in Hnames. rewrite !andb_true_iff, !negb_true_iff in Hnames.
  destruct Hnames as (N0 & N1 & N2 & N3 & _).
  unfold find_header_row, Config.MAX_HEADER_SCAN. cbn [firstn header_scan].
  rewrite N0, N1, N2, N3, H0, H1, H2, H3. reflexivity.
Qed.

Lemma find_header_row_refines_spec_witness :
  find_header_row
    [[PStr "Instructions"]; [PStr "dc.title"];
     [PStr "dc.title"; PStr "dc.creator"; PStr "dc.date.issued"];
     [PStr "dc.title"; PStr "dc.creator"]]
    Config.MAX_HEADER_SCAN = 2.
Proof.
  apply (proj2 find_header_row_refines_spec); reflexivity.
Defined.

(** ** The file associator *)

(** C1: the token "Photo" against a directory that holds "photo" and
    "Photo.jpg" is matched by the second strategy and, the loop going on to
    the third, by extension probing as well: one token gives two names. *)
Theorem find_files_second_strategy_falls_through :
  find_files_for_item ["Photo"] (Some ["photo"; "Photo.jpg"]) =
  Ok ["photo"; "Photo.jpg"].
Proof. reflexivity. Qed.

(** C2: the token "photo" is resolved to "photo.jpg" by extension probing,
    the file is copied and listed, and the token is reported missing all
    the same, because the report subtracts the resolved names from the
    tokens. *)
Theorem resolved_token_reported_missing :
  find_files_for_item ["photo"] (Some ["photo.jpg"]) = Ok ["photo.jpg"] /\
  set_minus ["photo"] ["photo.jpg"] = ["photo"] /\
  log (fst (main (quiet_env (Some ["photo.jpg"])) ["dc.title"; "Filename"]
              [[PStr "A title"; PStr "photo"]] no_tree)) =
  [WarnMissingRequired 1 ["creator"; "date.issued"]; InfoCreatedFolder 1;
   InfoCopied "photo.jpg"; WarnMissingFile "photo"; InfoCompleted 1 1] /\
  total_missing_files
    (fst (main (quiet_env (Some ["photo.jpg"])) ["dc.title"; "Filename"]
            [[PStr "A title"; PStr "photo"]] no_tree)) = 1.
Proof. repeat split; reflexivity. Qed.

(** ** The validator *)

(** C6: a manifest with a blank line makes [validate_item] raise
    [IndexError], which leaves the call and the loop over the packages. *)
Theorem validate_item_blank_line_raises :
  let it :=
    Validate.mk_item "1"
      (Some (Validate.Parsed
               [Validate.mk_node "dcvalue" (Some "title") (Some "none") (Some "A title")]))
      (Some [String "a" (String newline ""); String newline ""])
      (fun f => String.eqb f "a") in
  Validate.validate_item it [] = Raise IndexError /\
  Validate.validate_all [it] [] = Raise IndexError.
Proof. split; reflexivity. Qed.

(** ** The pipeline *)

Lemma bind_run {A B : Type} (m : M A) (k : A -> M B) (st : run) :
  bind m k st =
  match m st with
  | (st', Ok a) => k a st'
  | (st', Raise e) => (st', Raise e)
  end.
Proof. reflexivity. Qed.

(** A relation between the state before and the state after that every
    step of the body of a record respects is respected by the body. *)
Section Preserves.

Variable R : run -> run -> Prop.
Hypothesis R_refl : forall st, R st st.
Hypothesis R_trans : forall a b c, R a b -> R b c -> R a c.

Lemma preserves_ret {A : Type} (a : A) : preserves R (ret a).
Proof. intros st. apply R_refl. Qed.

Lemma preserves_gets {A : Type} (f : run -> A) : preserves R (gets f).
Proof. intros st. apply R_refl. Qed.

Lemma preserves_lift {A : Type} (r : result A) : preserves R (lift r).
Proof. intros st. apply R_refl. Qed.

Lemma preserves_bind {A B : Type} (m : M A) (k : A -> M B) :
  preserves R m -> (forall a, preserves R (k a)) -> preserves R (bind m k).
Proof.
  intros Hm Hk st. rewrite bind_run. specialize (Hm st).
  destruct (m st) as [st' [a|e]]; simpl in *; [|exact Hm].
  eapply R_trans; [exact Hm|apply Hk].
Qed.

Hypothesis R_emit : forall e, is_record_error e = false -> preserves R (emit e).
Hypothesis R_copied : preserves R incr_total_files_copied.
Hypothesis R_missing : preserves R incr_total_missing_files.
Hypothesis R_mkdir : forall E n, preserves R (safe_mkdir E n).
Hypothesis R_xml : forall E n doc, preserves R (store_xml E n doc).
Hypothesis R_file : forall n fname, preserves R (store_file n fname).
Hypothesis R_contents : forall E n lines, preserves R (store_contents E n lines).

Lemma preserves_copy_loop (E : env) (n : nat) (found_files : list string) :
  forall copied, preserves R (copy_loop E n found_files copied).
Proof.
  induction found_files as [|fname rest IH]; intros copied; simpl.
  - apply preserves_ret.
  - destruct (copy_fails E n fname).
    + apply preserves_bind; [now apply R_emit|intros _; apply IH].
    + repeat (apply preserves_bind; [|intros _]); auto.
Qed.

Lemma preserves_missing_loop (missing_files : list string) :
  preserves R (missing_loop missing_files).
Proof.
  induction missing_files as [|fname rest IH]; simpl.
  - apply preserves_ret.
  - repeat (apply preserves_bind; [|intros _]); auto.
Qed.

Lemma preserves_record_body (E : env) (columns filename_cols : list string)
  (idx : nat) (row : list pyval) :
  preserves R (record_body E columns filename_cols idx row).
Proof.
  unfold record_body.
  apply preserves_bind.
  { destruct (validate_required_fields (map Some columns) row);
      [apply preserves_ret|now apply R_emit]. }
  intros _. apply preserves_bind; [apply preserves_gets|]. intros n.
  apply preserves_bind; [apply R_mkdir|]. intros _.
  apply preserves_bind; [now apply R_emit|]. intros _.
  apply preserves_bind; [apply R_xml|]. intros _.
  apply preserves_bind; [apply preserves_lift|]. intros found_files.
  apply preserves_bind; [apply preserves_copy_loop|]. intros copied.
  apply preserves_bind; [apply preserves_missing_loop|]. intros _.
  apply preserves_bind; [apply R_contents|]. intros _.
  now apply R_emit.
Qed.

End Preserves.

Lemma package_kept_refl (p : package) : package_kept p p.
Proof. repeat split; auto. apply incl_refl. Qed.

Lemma tree_kept_refl (t : tree) : tree_kept t t.
Proof. intros n p H. exists p. split; [exact H|apply package_kept_refl]. Qed.

Lemma tree_kept_trans (a b c : tree) : tree_kept a b -> tree_kept b c -> tree_kept a c.
Proof.
  intros Hab Hbc n p H. destruct (Hab n p H) as (p' & H' & K).
  destruct (Hbc n p' H') as (p'' & H'' & K'). exists p''. split; [exact H''|].
  destruct K as (K1 & K2 & K3), K' as (K1' & K2' & K3').
  repeat split; auto. eapply incl_tran; eassumption.
Qed.

Lemma tree_kept_upd (t : tree) (n : nat) (p' : package) :
  (forall p, t n = Some p -> package_kept p p') -> tree_kept t (upd t n p').
Proof.
  intros H m p Hm. unfold upd. destruct (m =? n) eqn:E.
  - apply Nat.eqb_eq in E. subst m. exists p'. split; [reflexivity|now apply H].
  - exists p. split; [exact Hm|apply package_kept_refl].
Qed.

Lemma record_errors_snoc (l : list event) (e : event) :
  record_errors (l ++ [e]) = record_errors l + (if is_record_error e then 1 else 0).
Proof.
  unfold record_errors. rewrite filter_app, length_app. simpl.
  now destruct (is_record_error e).
Qed.

Ltac run_prims :=
  unfold preserves, safe_mkdir, store_xml, store_file, store_contents, emit,
    incr_total_files_copied, incr_total_missing_files, incr_total_records,
    incr_error_count, set_out, modify, gets, raise, ret;
  intros.

Ltac split_prims :=
  repeat match goal with
         | |- context [bind _ _ _] => rewrite bind_run; cbn [fst snd]
         | |- context [match out ?st ?n with _ => _ end] =>
             destruct (out st n) eqn:?; cbn [fst snd out]
         | |- context [if ?b then _ else _] => destruct b; cbn [fst snd]
         end.

Ltac proj_cbn :=
  cbn [fst snd out log total_records total_files_copied total_missing_files
       error_count after_record] in *.

Lemma same_total_record_body (E : env) (columns filename_cols : list string)
  (idx : nat) (row : list pyval) (st : run) :
  total_records (fst (record_body E columns filename_cols idx row st)) = total_records st.
Proof.
  apply (preserves_record_body same_total); unfold same_total;
    try (run_prims; split_prims; proj_cbn; congruence).
Qed.

Lemma errors_logged_record_body (E : env) (columns filename_cols : list string)
  (idx : nat) (row : list pyval) (st : run) :
  errors_logged st (fst (record_body E columns filename_cols idx row st)).
Proof.
  apply (preserves_record_body errors_logged); unfold errors_logged;
    try (run_prims; split_prims; proj_cbn; lia).
  run_prims. proj_cbn. rewrite record_errors_snoc.
  match goal with H : is_record_error _ = false |- _ => rewrite H end. lia.
Qed.

Lemma output_kept_record_body (E : env) (columns filename_cols : list string)
  (idx : nat) (row : list pyval) (st : run) :
  tree_kept (out st) (out (fst (record_body E columns filename_cols idx row st))).
Proof.
  apply (preserves_record_body output_kept); unfold output_kept.
  - intros s. apply tree_kept_refl.
  - intros a b c. apply tree_kept_trans.
  - run_prims. apply tree_kept_refl.
  - run_prims. apply tree_kept_refl.
  - run_prims. apply tree_kept_refl.
  - run_prims. split_prims; proj_cbn; try apply tree_kept_refl.
    apply tree_kept_upd. congruence.
  - run_prims. split_prims; proj_cbn; try apply tree_kept_refl.
    apply tree_kept_upd. intros q Hq. rewrite Hq in *.
    match goal with H : Some _ = Some _ |- _ => injection H as <- end.
    repeat split; cbn; auto using incl_refl. discriminate.
  - run_prims. split_prims; proj_cbn; try apply tree_kept_refl;
      apply tree_kept_upd; intros q Hq; rewrite Hq in *;
      match goal with H : Some _ = Some _ |- _ => injection H as <- end;
      repeat split; cbn; auto using incl_refl.
    apply incl_appl, incl_refl.
  - run_prims. split_prims; proj_cbn; try apply tree_kept_refl.
    apply tree_kept_upd. intros q Hq. rewrite Hq in *.
    match goal with H : Some _ = Some _ |- _ => injection H as <- end.
    repeat split; cbn; auto using incl_refl. discriminate.
Qed.

(** One turn of the loop: the record is counted, its body runs, and the
    loop goes on from [after_record] without an exception. *)
Lemma process_record_run (E : env) (columns filename_cols : list string)
  (idx : nat) (row : list pyval) (st : run) :
  process_record E columns filename_cols idx row st =
  (after_record idx
     (fst (record_body E columns filename_cols idx row (fst (incr_total_records st))))
     (snd (record_body E columns filename_cols idx row (fst (incr_total_records st)))),
   Ok tt).
Proof.
  unfold process_record. rewrite bind_run. cbn [incr_total_records modify fst].
  unfold try_except.
  destruct (record_body E columns filename_cols idx row _) as [st2 [[]|e]];
    reflexivity.
Qed.

Lemma records_loop_cons (E : env) (columns filename_cols : list string)
  (idx : nat) (row : list pyval) (rows : list (list pyval)) (st : run) :
  records_loop E columns filename_cols idx (row :: rows) st =
  records_loop E columns filename_cols (S idx) rows
    (fst (process_record E columns filename_cols idx row st)).
Proof.
  cbn [records_loop]. rewrite bind_run, process_record_run. reflexivity.
Qed.

Lemma records_loop_app (E : env) (columns filename_cols : list string)
  (rows1 rows2 : list (list pyval)) :
  forall (idx : nat) (st : run),
    records_loop E columns filename_cols idx (rows1 ++ rows2) st =
    records_loop E columns filename_cols (idx + List.length rows1) rows2
      (fst (records_loop E columns filename_cols idx rows1 st)).
Proof.
  induction rows1 as [|row rows1 IH]; intros idx st.
  - simpl. now rewrite Nat.add_0_r.
  - rewrite <- app_comm_cons, !records_loop_cons, IH. simpl List.length.
    now rewrite Nat.add_succ_r.
Qed.

(** C8: whatever the environment makes fail, no exception leaves the loop
    over the records; every record is counted; the error counter grows by
    one for each record whose body raised, together with an entry of the
    log; after a record that raised the loop goes on with the next record
    from the state the body had reached, and nothing that was written to
    the output tree is removed. *)
Theorem record_errors_are_contained :
  forall (E : env) (columns filename_cols : list string) (idx : nat)
         (rows : list (list pyval)) (st : run),
    snd (records_loop E columns filename_cols idx rows st) = Ok tt /\
    total_records (fst (records_loop E columns filename_cols idx rows st)) =
      total_records st + List.length rows /\
    error_count (fst (records_loop E columns filename_cols idx rows st))
      + record_errors (log st) =
      error_count st
      + record_errors (log (fst (records_loop E columns filename_cols idx rows st))) /\
    tree_kept (out st) (out (fst (records_loop E columns filename_cols idx rows st))) /\
    (forall (rows1 : list (list pyval)) (row : list pyval) (rows2 : list (list pyval)),
       rows = rows1 ++ row :: rows2 ->
       let i := idx + List.length rows1 in
       let before := fst (records_loop E columns filename_cols idx rows1 st) in
       let body := record_body E columns filename_cols i row
                     (fst (incr_total_records before)) in
       fst (records_loop E columns filename_cols idx rows st) =
       fst (records_loop E columns filename_cols (S i) rows2
              (after_record i (fst body) (snd body)))).
Proof.
  intros E columns filename_cols idx rows st.
  split; [|split; [|split; [|split]]].
  - revert idx st. induction rows as [|row rows IH]; intros idx st;
      [reflexivity|]. rewrite records_loop_cons. apply IH.
  - revert idx st. induction rows as [|row rows IH]; intros idx st.
    + simpl. lia.
    + rewrite records_loop_cons, IH, process_record_run. cbn [fst].
      pose proof (same_total_record_body E columns filename_cols idx row
                    (fst (incr_total_records st))) as H.
      destruct (record_body E columns filename_cols idx row _) as [st2 [[]|e]];
        simpl List.length; proj_cbn; rewrite H;
        unfold incr_total_records, modify; proj_cbn; lia.
  - revert idx st. induction rows as [|row rows IH]; intros idx st.
    + simpl. lia.
    + rewrite records_loop_cons. specialize (IH (S idx)
        (fst (process_record E columns filename_cols idx row st))).
      rewrite process_record_run in *. cbn [fst] in *.
      pose proof (errors_logged_record_body E columns filename_cols idx row
                    (fst (incr_total_records st))) as H.
      unfold errors_logged in H.
      destruct (record_body E columns filename_cols idx row _) as [st2 [[]|e]];
        unfold incr_total_records, modify in *; proj_cbn;
        try rewrite record_errors_snoc in IH; cbn [is_record_error] in IH; lia.
  - revert idx st. induction rows as [|row rows IH]; intros idx st.
    + apply tree_kept_refl.
    + rewrite records_loop_cons.
      eapply tree_kept_trans; [|apply IH].
      rewrite process_record_run. cbn [fst].
      pose proof (output_kept_record_body E columns filename_cols idx row
                    (fst (incr_total_records st))) as H.
      destruct (record_body E columns filename_cols idx row _) as [st2 [[]|e]];
        unfold incr_total_records, modify in *; proj_cbn; exact H.
  - intros rows1 row rows2 -> i before body. subst i before body.
    rewrite records_loop_app, records_loop_cons, process_record_run.
    reflexivity.
Qed.


Lemma upd_same (t : tree) (n : nat) (p : package) : upd t n p n = Some p.
Proof. unfold upd. now rewrite Nat.eqb_refl. Qed.




Lemma str_in_In (x : string) (l : list string) : str_in x l = true <-> In x l.
Proof.
  unfold str_in. rewrite existsb_exists. split.
  - intros (y & Hy & E). apply String.eqb_eq in E. now subst.
  - intros H. exists x. split; [exact H|apply String.eqb_refl].
Qed.

(** The copy loop never raises: it returns the names whose copy succeeded,
    in order, and adds them to the files of the package. *)
Lemma copy_loop_spec (E : env) (n : nat) (found_files : list string) :
  forall (copied : list string) (st : run),
  exists st',
    copy_loop E n found_files copied st =
      (st', Ok (copied ++ filter (fun f => negb (copy_fails E n f)) found_files)) /\
    (forall p, out st n = Some p ->
       exists p',
         out st' n = Some p' /\
         pk_xml p' = pk_xml p /\
         pk_contents p' = pk_contents p /\
         (forall f, In f (pk_files p') <->
                    In f (pk_files p) \/ (In f found_files /\ copy_fails E n f = false))).
Proof.
  induction found_files as [|fname rest IH]; intros copied st.
  - exists st. split; [simpl; now rewrite app_nil_r|].
    intros p Hp. exists p. split; [exact Hp|]. split; [reflexivity|].
    split; [reflexivity|]. intros f. simpl. tauto.
  - cbn [copy_loop filter]. destruct (copy_fails E n fname) eqn:Hc; cbn [negb].
    + cbv beta iota zeta delta [bind emit modify].
      destruct (IH copied
                  (mk_run (out st) (log st ++ [ErrorCopy n fname]) (total_records st)
                     (total_files_copied st) (total_missing_files st) (error_count st)))
        as (st' & Hrun & Hout).
      exists st'. split; [exact Hrun|]. intros p Hp.
      destruct (Hout p Hp) as (p' & H1 & H2 & H3 & H4).
      exists p'. split; [exact H1|]. split; [exact H2|]. split; [exact H3|].
      intros f. split.
      * intros Hf. apply H4 in Hf. destruct Hf as [Hf|[Hf Hok]]; [now left|].
        right. split; [now right|exact Hok].
      * intros [Hf|[[<-|Hf] Hok]]; apply H4; auto. congruence.
    + cbv beta iota zeta delta
        [bind store_file gets set_out modify ret emit incr_total_files_copied].
      destruct (out st n) as [p0|] eqn:Hp0; cbv beta iota.
      * cbn [out log total_records total_files_copied total_missing_files
               error_count].
        match goal with
        | |- context [copy_loop E n rest (copied ++ [fname]) ?s] =>
            destruct (IH (copied ++ [fname]) s) as (st' & Hrun & Hout)
        end.
        exists st'. split; [rewrite Hrun, <- app_assoc; reflexivity|].
        intros p Hp. injection Hp as <-.
        destruct (Hout _ (upd_same (out st) n _)) as (p' & H1 & H2 & H3 & H4).
        exists p'. cbn [pk_xml pk_contents pk_files] in *.
        split; [exact H1|]. split; [exact H2|]. split; [exact H3|].
        intros f. split.
        -- intros Hf. apply H4 in Hf. destruct Hf as [Hf|[Hf Hok]].
           ++ destruct (str_in fname (pk_files p0)); [now left|].
              apply in_app_or in Hf. destruct Hf as [Hf|[<-|[]]]; [now left|].
              right. split; [now left|exact Hc].
           ++ right. split; [now right|exact Hok].
        -- intros Hf. apply H4.
           destruct Hf as [Hf|[[<-|Hf] Hok]].
           ++ left. destruct (str_in fname (pk_files p0)); [exact Hf|].
              apply in_or_app. now left.
           ++ left. destruct (str_in fname (pk_files p0)) eqn:Hin.
              ** now apply str_in_In.
              ** apply in_or_app. right. now left.
           ++ right. now split.
      * cbn [out log total_records total_files_copied total_missing_files
               error_count].
        match goal with
        | |- context [copy_loop E n rest (copied ++ [fname]) ?s] =>
            destruct (IH (copied ++ [fname]) s) as (st' & Hrun & Hout)
        end.
        exists st'. split; [rewrite Hrun, <- app_assoc; reflexivity|].
        intros p Hp. discriminate.
Qed.

Lemma missing_loop_spec (missing_files : list string) :
  forall st : run,
  exists st', missing_loop missing_files st = (st', Ok tt) /\ out st' = out st.
Proof.
  induction missing_files as [|fname rest IH]; intros st.
  - exists st. split; reflexivity.
  - cbn [missing_loop].
    cbv beta iota zeta delta [bind incr_total_missing_files emit modify].
    cbn [out log total_records total_files_copied total_missing_files error_count].
    match goal with
    | |- context [missing_loop rest ?s] => destruct (IH s) as (st' & Hrun & Hout)
    end.
    exists st'. split; [exact Hrun|exact Hout].
Qed.

Lemma sorted_in (l : list string) (f : string) : In f (sorted l) <-> In f l.
Proof.
  unfold sorted. split; apply Permutation_in.
  - apply Permutation_sym, StringSort.Permuted_sort.
  - apply StringSort.Permuted_sort.
Qed.

Lemma sorted_is_sorted (l : list string) :
  Sorted (fun a b => String.leb a b = true) (sorted l).
Proof. exact (StringSort.Sorted_sort l). Qed.

Lemma filter_none {A : Type} (g : A -> bool) (l : list A) :
  (forall x, In x l -> g x = false) -> filter g l = [].
Proof.
  induction l as [|a l IH]; intros H; simpl; [reflexivity|].
  rewrite (H a) by now left. apply IH. intros x Hx. apply H. now right.
Qed.

Ltac run_body_in H :=
  cbv beta iota zeta delta
    [record_body bind safe_mkdir store_xml store_contents emit set_out
     incr_total_records modify gets ret raise lift after_record fst snd] in H;
  cbn [out log total_records total_files_copied total_missing_files error_count] in H.

(** From the call of [find_files_for_item] to the end of the body. *)
Ltac manifest_tail H :=
  let found := fresh "found" in
  let Hfound := fresh "Hfound" in
  destruct (find_files_for_item _ _) as [found|] eqn:Hfound;
    [|run_body_in H; discriminate];
  run_body_in H;
  let st4 := fresh "st4" in
  let Hrun := fresh "Hrun" in
  let Hout := fresh "Hout" in
  match type of H with
  | context [copy_loop ?E ?n ?f ?c ?s] =>
      destruct (copy_loop_spec E n f c s) as (st4 & Hrun & Hout)
  end;
  rewrite Hrun in H; cbv beta iota in H;
  let st5 := fresh "st5" in
  let Hrun5 := fresh "Hrun" in
  let Hout5 := fresh "Hout" in
  match type of H with
  | context [missing_loop ?l ?s] =>
      destruct (missing_loop_spec l s) as (st5 & Hrun5 & Hout5)
  end;
  rewrite Hrun5 in H; cbv beta iota in H;
  destruct (contents_open_fails _ _); [cbv beta iota in H; discriminate|];
  cbn [out] in Hout;
  let p4 := fresh "p4" in
  let H4 := fresh "H4" in
  let Hfiles := fresh "Hfiles" in
  destruct (Hout _ (upd_same _ _ _)) as (p4 & H4 & _ & _ & Hfiles);
  rewrite Hout5, H4 in H; cbv beta iota in H;
  injection H as <-;
  cbn [app pk_files] in *;
  exists found;
  eexists; eexists;
  split; [reflexivity|];
  split; [cbn [out]; apply upd_same|];
  split; [reflexivity|];
  split; [reflexivity|];
  split; [apply sorted_is_sorted|];
  split; [intros f; rewrite sorted_in, filter_In, negb_true_iff; reflexivity|];
  split; [intros f Hf; cbn [pk_files]; apply Hfiles; right;
          rewrite sorted_in, filter_In, negb_true_iff in Hf; exact Hf|];
  split; [intros Hfresh f Hf; cbn [pk_files] in Hf; apply Hfiles in Hf;
          rewrite sorted_in, filter_In, negb_true_iff;
          destruct Hf as [Hf|Hf]; [try discriminate Hfresh; destruct Hf|exact Hf]|];
  intros Hall; rewrite filter_none; [reflexivity|];
  intros x Hx; rewrite (Hall x Hx); reflexivity.

(** C5: when the body of a record completes, the manifest of its package
    is the sorted list of the resolved names whose copy succeeded: it is in
    ascending order, it holds a name exactly when the name was resolved and
    its copy did not fail, every name in it is a file of the package, in a
    fresh package every file is in it, and it is empty when no name was
    resolved or every copy failed. *)
Theorem manifest_lists_copied_files :
  forall (E : env) (columns filename_cols : list string) (idx : nat)
         (row : list pyval) (st : run),
    snd (record_body E columns filename_cols idx row st) = Ok tt ->
    exists (found_files : list string) (p : package) (manifest : list string),
      find_files_for_item
        (set_order E (gather_filenames columns row filename_cols)) (files_dir E)
        = Ok found_files /\
      out (fst (record_body E columns filename_cols idx row st)) (total_records st)
        = Some p /\
      pk_contents p = Some manifest /\
      manifest =
        sorted (filter (fun f => negb (copy_fails E (total_records st) f)) found_files) /\
      Sorted (fun a b => String.leb a b = true) manifest /\
      (forall f, In f manifest <->
                 In f found_files /\ copy_fails E (total_records st) f = false) /\
      (forall f, In f manifest -> In f (pk_files p)) /\
      (out st (total_records st) = None ->
       forall f, In f (pk_files p) -> In f manifest) /\
      ((forall f, In f found_files -> copy_fails E (total_records st) f = true) ->
       manifest = []).
Proof.
  intros E columns filename_cols idx row st Hok.
  destruct (record_body E columns filename_cols idx row st) as [st' r] eqn:H.
  cbn [fst snd] in *. subst r.
  run_body_in H.
  destruct (validate_required_fields (map Some columns) row); run_body_in H;
    (destruct (mkdir_fails E (total_records st));
     [run_body_in H; discriminate|run_body_in H]);
    destruct (out st (total_records st)) as [p0|] eqn:Hp0; run_body_in H;
    (destruct (xml_write_fails E (total_records st));
     [run_body_in H; discriminate|run_body_in H]);
    run_body_in H; rewrite ?Hp0, ?upd_same in H; run_body_in H;
    manifest_tail H.
Qed.

Lemma manifest_lists_copied_files_witness :
  exists (found_files : list string) (p : package) (manifest : list string),
    find_files_for_item
      (set_order demo_env (gather_filenames demo_columns demo_row ["Filename"]))
      (files_dir demo_env) = Ok found_files /\
    out (fst (record_body demo_env demo_columns ["Filename"] 0 demo_row demo_state))
        (total_records demo_state) = Some p /\
    pk_contents p = Some manifest /\
    manifest =
      sorted (filter (fun f => negb (copy_fails demo_env (total_records demo_state) f))
                found_files) /\
    Sorted (fun a b => String.leb a b = true) manifest /\
    (forall f, In f manifest <->
               In f found_files /\
               copy_fails demo_env (total_records demo_state) f = false) /\
    (forall f, In f manifest -> In f (pk_files p)) /\
    (out demo_state (total_records demo_state) = None ->
     forall f, In f (pk_files p) -> In f manifest) /\
    ((forall f, In f found_files ->
                copy_fails demo_env (total_records demo_state) f = true) ->
     manifest = []).
Proof.
  apply (manifest_lists_copied_files demo_env demo_columns ["Filename"] 0 demo_row
           demo_state).
  reflexivity.
Defined.

Lemma record_errors_are_contained_witness :
  let i := 0 + List.length [demo_row] in
  let before :=
    fst (records_loop (quiet_env None) demo_columns ["Filename"] 0 [demo_row]
           (initial_run no_tree)) in
  let body := record_body (quiet_env None) demo_columns ["Filename"] i demo_row
                (fst (incr_total_records before)) in
  fst (records_loop (quiet_env None) demo_columns ["Filename"] 0 [demo_row; demo_row]
         (initial_run no_tree)) =
  fst (records_loop (quiet_env None) demo_columns ["Filename"] (S i) []
         (after_record i (fst body) (snd body))).
Proof.
  exact (proj2 (proj2 (proj2 (proj2
           (record_errors_are_contained (quiet_env None) demo_columns ["Filename"] 0
              [demo_row; demo_row] (initial_run no_tree)))))
           [demo_row] demo_row [] eq_refl).
Defined.

(** * Further properties of the code *)

(** ** The file associator, continued *)

Lemma strategy2_adds (fname : string) (entries acc : list string) :
  exists added,
    strategy2 fname entries acc = acc ++ added /\
    List.length added <= 1 /\
    Forall (fun f => path_exists (Some entries) f = true) added.
Proof.
  unfold strategy2. destruct (find (ci_fullmatch fname) entries) as [actual|] eqn:F.
  - exists [actual]. split; [reflexivity|]. split; [simpl; lia|].
    constructor; [|constructor]. apply find_some in F as [Hin _].
    simpl. now apply str_in_In.
  - exists []. split; [now rewrite app_nil_r|]. split; [simpl; lia|constructor].
Qed.

Lemma strategy3_adds (fname : string) (d : directory) (acc : list string) :
  exists added,
    strategy3 fname d acc = acc ++ added /\
    List.length added <= 1 /\
    Forall (fun f => path_exists d f = true) added.
Proof.
  unfold strategy3. destruct (String.eqb (path_suffix fname) "").
  - destruct (find _ Config.ALLOWED_FILE_EXTENSIONS) as [ext|] eqn:F.
    + exists [(fname ++ ext)%string]. split; [reflexivity|]. split; [simpl; lia|].
      constructor; [|constructor]. now apply find_some in F as [_ Hex].
    + exists []. split; [now rewrite app_nil_r|]. split; [simpl; lia|constructor].
  - exists []. split; [now rewrite app_nil_r|]. split; [simpl; lia|constructor].
Qed.

(** What the loop adds to the names found so far: names that exist, two
    for a token at most, and every token that exists under its own name. *)
Lemma find_files_loop_adds (d : directory) (filenames : list string) :
  forall acc found,
    find_files_loop filenames d acc = Ok found ->
    exists added,
      found = acc ++ added /\
      List.length added <= 2 * List.length filenames /\
      Forall (fun f => path_exists d f = true) added /\
      (forall t, In t filenames -> path_exists d t = true -> In t added).
Proof.
  induction filenames as [|fname rest IH]; intros acc found H.
  - injection H as <-. exists []. rewrite app_nil_r.
    split; [reflexivity|]. split; [simpl; lia|]. split; [constructor|].
    intros t [].
  - cbn [find_files_loop] in H. destruct (path_exists d fname) eqn:Hex.
    + destruct (IH _ _ H) as (added & -> & Hlen & Hall & Hin).
      exists (fname :: added). rewrite <- app_assoc. split; [reflexivity|].
      split; [simpl in *; lia|]. split; [now constructor|].
      intros t [<-|Ht] Hp; [now left|right; now apply Hin].
    + destruct d as [entries|]; [|discriminate]. cbn [iterdir] in H.
      destruct (strategy2_adds fname entries acc) as (a2 & E2 & L2 & F2).
      destruct (strategy3_adds fname (Some entries) (acc ++ a2)) as (a3 & E3 & L3 & F3).
      rewrite E2, E3 in H.
      destruct (IH _ _ H) as (added & -> & Hlen & Hall & Hin).
      exists (a2 ++ a3 ++ added). rewrite <- !app_assoc. split; [reflexivity|].
      split; [rewrite !length_app; simpl in *; lia|].
      split; [rewrite !Forall_app; auto|].
      intros t [<-|Ht] Hp; [congruence|].
      apply in_or_app. right. apply in_or_app. right. now apply Hin.
Qed.


(** X1: every name [find_files_for_item] returns exists in the bitstream
    directory, so [main] only tries to copy files that are there. *)
Theorem find_files_returns_existing_files :
  forall (filenames : list string) (d : directory) (found : list string),
    find_files_for_item filenames d = Ok found ->
    forall f, In f found -> path_exists d f = true.
Proof.
  intros filenames d found H f Hf. unfold find_files_for_item in H.
  destruct (find_files_loop_adds d filenames [] found H) as (added & -> & _ & Hall & _).
  rewrite Forall_forall in Hall. now apply Hall.
Qed.

Lemma find_files_returns_existing_files_witness :
  path_exists (Some ["photo.jpg"; "y.pdf"; "y.txt"]) "y.pdf" = true.
Proof.
  apply (find_files_returns_existing_files ["Photo.JPG"; "x.txt"; "y"]
           (Some ["photo.jpg"; "y.pdf"; "y.txt"]) ["photo.jpg"; "y.pdf"]).
  - reflexivity.
  - right. now left.
Defined.


Lemma find_files_loop_exact (d : directory) (filenames : list string) :
  forall acc,
    (forall t, In t filenames -> path_exists d t = true) ->
    find_files_loop filenames d acc = Ok (acc ++ filenames).
Proof.
  induction filenames as [|fname rest IH]; intros acc Hall.
  - simpl. now rewrite app_nil_r.
  - cbn [find_files_loop]. rewrite (Hall fname) by now left.
    rewrite IH by (intros t Ht; apply Hall; now right).
    now rewrite <- app_assoc.
Qed.

(** X3: a token gives two names at most, and when every token exists in
    the directory under its own name the result is the list of tokens, in
    their order. *)
Theorem find_files_at_most_two_per_token :
  forall (filenames : list string) (d : directory),
    (forall found, find_files_for_item filenames d = Ok found ->
                   List.length found <= 2 * List.length filenames) /\
    ((forall t, In t filenames -> path_exists d t = true) ->
     find_files_for_item filenames d = Ok filenames).
Proof.
  intros filenames d. split.
  - intros found H.
    destruct (find_files_loop_adds d filenames [] found H) as (added & -> & Hlen & _).
    exact Hlen.
  - intros Hall. unfold find_files_for_item.
    now rewrite find_files_loop_exact.
Qed.

Lemma find_files_at_most_two_per_token_witness :
  find_files_for_item ["b.pdf"; "a.pdf"] (Some ["a.pdf"; "b.pdf"; "c.pdf"]) =
  Ok ["b.pdf"; "a.pdf"].
Proof.
  apply (proj2 (find_files_at_most_two_per_token ["b.pdf"; "a.pdf"]
                  (Some ["a.pdf"; "b.pdf"; "c.pdf"]))).
  intros t [<-|[<-|[]]]; reflexivity.
Defined.

(** X4: the tokens [main] reports as missing are the tokens that do not
    exist in the directory under their own name, whether or not the second
    or third strategy resolved them; [order] is the order in which the set
    of tokens is iterated. *)
Theorem missing_report_is_tokens_without_exact_file :
  forall (tokens order : list string) (d : directory) (found : list string),
    (forall t, In t order <-> In t tokens) ->
    find_files_for_item order d = Ok found ->
    set_minus tokens found = filter (fun t => negb (path_exists d t)) tokens.
Proof.
  intros tokens order d found Hord H. unfold find_files_for_item in H.
  destruct (find_files_loop_adds d order [] found H) as (added & -> & _ & Hall & Hin).
  unfold set_minus. apply filter_ext_in. intros t Ht. f_equal.
  cbn [app]. destruct (path_exists d t) eqn:Hp.
  - apply str_in_In, Hin; [now apply Hord|exact Hp].
  - destruct (str_in t added) eqn:Hs; [|reflexivity].
    apply str_in_In in Hs. rewrite Forall_forall in Hall.
    rewrite (Hall t Hs) in Hp. discriminate.
Qed.

Lemma missing_report_is_tokens_without_exact_file_witness :
  set_minus ["photo"; "a.pdf"; "zz"] ["a.pdf"; "photo.jpg"] =
  filter (fun t => negb (path_exists (Some ["photo.jpg"; "a.pdf"]) t))
    ["photo"; "a.pdf"; "zz"].
Proof.
  apply (missing_report_is_tokens_without_exact_file ["photo"; "a.pdf"; "zz"]
           ["a.pdf"; "zz"; "photo"] (Some ["photo.jpg"; "a.pdf"])).
  - intros t. simpl. tauto.
  - reflexivity.
Defined.

(** ** The tokens of a record *)

Lemma all_chars_rev (p : ascii -> bool) (s : string) :
  all_chars p s -> all_chars p (PyStr.rev s).
Proof.
  unfold all_chars, PyStr.rev. intros H c.
  rewrite list_ascii_of_string_of_list_ascii, <- in_rev. apply H.
Qed.

Lemma all_chars_lstrip (p : ascii -> bool) (s : string) :
  all_chars p s -> all_chars p (PyStr.lstrip s).
Proof.
  unfold all_chars. induction s as [|a s IH]; intros H; simpl; [exact H|].
  destruct (PyStr.isspace a); [|exact H].
  apply IH. intros c Hc. apply H. now right.
Qed.

Lemma all_chars_strip (p : ascii -> bool) (s : string) :
  all_chars p s -> all_chars p (PyStr.strip s).
Proof.
  intros H. unfold PyStr.strip, PyStr.rstrip.
  now apply all_chars_rev, all_chars_lstrip, all_chars_rev, all_chars_lstrip.
Qed.

Lemma all_chars_after_last (p : ascii -> bool) (c : ascii) (s : string) :
  all_chars p s -> all_chars p (PyStr.after_last c s).
Proof.
  unfold all_chars. induction s as [|a s IH]; intros H; simpl; [exact H|].
  destruct (PyStr.has_char c s).
  - apply IH. intros x Hx. apply H. now right.
  - destruct (Ascii.eqb a c); [|exact H]. intros x Hx. apply H. now right.
Qed.

Lemma after_last_has_no_char (c : ascii) (s : string) :
  PyStr.has_char c (PyStr.after_last c s) = false.
Proof.
  induction s as [|a s IH]; simpl; [reflexivity|].
  destruct (PyStr.has_char c s) eqn:Hs; [exact IH|].
  destruct (Ascii.eqb a c) eqn:Ha; [exact Hs|].
  simpl. now rewrite Ha, Hs.
Qed.

(** The pieces [re.split] returns hold no character of the class. *)
Lemma re_split_go_pieces (cls : ascii -> bool) (s : string) :
  forall (cur : string) (in_run : bool),
    all_chars (fun c => negb (cls c)) cur ->
    Forall (all_chars (fun c => negb (cls c))) (PyStr.re_split_go cls s cur in_run).
Proof.
  induction s as [|a s IH]; intros cur in_run Hcur; simpl.
  - constructor; [now apply all_chars_rev|constructor].
  - destruct (cls a) eqn:Ha.
    + destruct in_run; [now apply IH|].
      constructor; [now apply all_chars_rev|]. apply IH. intros c [].
    + apply IH. intros c [<-|Hc]; [now rewrite Ha|now apply Hcur].
Qed.

Lemma set_add_keeps (P : string -> Prop) (p : string) (fs : list string) :
  NoDup fs -> Forall P fs -> P p ->
  NoDup (set_add p fs) /\ Forall P (set_add p fs).
Proof.
  intros Hnd Hall Hp. unfold set_add. destruct (str_in p fs) eqn:Hin; [now split|].
  split.
  - apply NoDup_app; [exact Hnd|repeat constructor; intros []|].
    intros a Ha [<-|[]]. apply str_in_In in Ha. congruence.
  - apply Forall_app. split; [exact Hall|now repeat constructor].
Qed.

Lemma add_parts_keeps (parts : list string) :
  forall fs,
    Forall (all_chars (fun c => negb (token_sep c))) parts ->
    NoDup fs -> Forall token_ok fs ->
    NoDup (add_parts parts fs) /\ Forall token_ok (add_parts parts fs).
Proof.
  unfold add_parts.
  induction parts as [|part parts IH]; intros fs Hparts Hnd Hall; [now split|].
  cbn [fold_left]. inversion Hparts as [|? ? Hpart Hrest]; subst.
  destruct (negb (String.eqb (basename_only (PyStr.strip part)) "") &&
            negb (str_in (PyStr.lower (basename_only (PyStr.strip part)))
                    [""; "none"; "nan"])) eqn:Hok.
  - apply andb_prop in Hok as [Hne Hnone].
    apply negb_true_iff in Hne, Hnone. apply String.eqb_neq in Hne.
    assert (Htok : token_ok (basename_only (PyStr.strip part))).
    { split; [exact Hne|]. split; [apply after_last_has_no_char|]. split.
      - unfold basename_only.
        now apply all_chars_after_last, all_chars_strip, all_chars_strip.
      - simpl in Hnone. simpl. now apply orb_false_elim in Hnone as [_ ->]. }
    destruct (set_add_keeps token_ok _ fs Hnd Hall Htok) as [Hnd' Hall'].
    now apply IH.
  - now apply IH.
Qed.

(** X5: the tokens gathered for a record are pairwise distinct, and each
    is a non-empty single file name: no "/" (only the basename is kept),
    none of the separators [; , |] or newline, and not the text "none" or
    "nan" in any case. *)
Theorem gather_filenames_tokens_are_names :
  forall (columns : list string) (values : list pyval) (filename_cols : list string),
    NoDup (gather_filenames columns values filename_cols) /\
    Forall token_ok (gather_filenames columns values filename_cols).
Proof.
  intros columns values filename_cols. unfold gather_filenames.
  assert (H : forall fs, NoDup fs -> Forall token_ok fs ->
            NoDup (fold_left
                     (fun fs col =>
                        let raw := row_get columns values col in
                        if is_blank raw then fs
                        else add_parts (PyStr.re_split token_sep (py_str raw)) fs)
                     filename_cols fs) /\
            Forall token_ok
                   (fold_left
                      (fun fs col =>
                         let raw := row_get columns values col in
                         if is_blank raw then fs
                         else add_parts (PyStr.re_split token_sep (py_str raw)) fs)
                      filename_cols fs)).
  { induction filename_cols as [|col cols IH]; intros fs Hnd Hall; [now split|].
    cbn [fold_left]. cbv zeta.
    destruct (is_blank (row_get columns values col)); [now apply IH|].
    destruct (add_parts_keeps (PyStr.re_split token_sep
                                 (py_str (row_get columns values col))) fs)
      as [Hnd' Hall']; auto.
    - apply re_split_go_pieces. intros c []. }
  apply H; constructor.
Qed.

(** ** Decomposition of a column name *)

Lemma prefix_app (p s : string) :
  prefix p s = true -> exists r, s = (p ++ r)%string.
Proof.
  revert s. induction p as [|a p IH]; intros s H.
  - now exists s.
  - destruct s as [|b s]; [discriminate|]. simpl in H.
    destruct (ascii_dec a b) as [<-|]; [|discriminate].
    destruct (IH s H) as [r ->]. now exists r.
Qed.

Lemma split_cons (sep : ascii) (s : string) :
  exists h t, PyStr.split sep s = h :: t.
Proof.
  induction s as [|a s (h & t & IH)]; simpl.
  - now exists "", [].
  - destruct (Ascii.eqb a sep); [now exists "", (PyStr.split sep s)|].
    rewrite IH. now exists (String a h), t.
Qed.

Lemma split_pieces (sep : ascii) (s : string) :
  Forall (fun x => PyStr.has_char sep x = false) (PyStr.split sep s).
Proof.
  induction s as [|a s IH]; simpl.
  - now repeat constructor.
  - destruct (Ascii.eqb a sep) eqn:Ha; [now constructor|].
    destruct (PyStr.split sep s) as [|h t]; [repeat constructor; simpl; now rewrite Ha|].
    inversion IH; subst. constructor; [|assumption]. simpl. now rewrite Ha.
Qed.

Lemma join_split (sep : ascii) (s : string) :
  PyStr.join (String sep "") (PyStr.split sep s) = s.
Proof.
  unfold PyStr.join. induction s as [|a s IH]; [reflexivity|].
  cbn [PyStr.split]. destruct (split_cons sep s) as (h & t & E).
  rewrite E in *. destruct (Ascii.eqb a sep) eqn:Ha.
  - apply Ascii.eqb_eq in Ha. subst a.
    change (String sep (String.concat (String sep "") (h :: t)) = String sep s).
    now rewrite IH.
  - destruct t as [|h' t].
    + cbn [String.concat] in *. now rewrite IH.
    + change (String a (String.concat (String sep "") (h :: h' :: t)) = String a s).
      now rewrite IH.
Qed.

(** The result of [parse_dc] on a name that begins, trimmed and in lower
    case, with "dc." followed by [r]. *)
Lemma parse_dc_prefixed (s r : string) :
  PyStr.lower (PyStr.strip s) = ("dc." ++ r)%string ->
  exists e t,
    PyStr.split "." r = e :: t /\
    parse_dc (Some s) =
      (Some e, match t with [] => None | _ => Some (PyStr.join "." t) end).
Proof.
  intros Hc. unfold parse_dc. rewrite Hc.
  destruct (split_cons "." r) as (e & t & E). exists e, t. split; [exact E|].
  cbn. replace (prefix "" r) with true by now destruct r.
  rewrite E. now destruct t.
Qed.

(** X6: [parse_dc] finds an element exactly for the names [is_dc_column]
    accepts, and answers (None, None) for all others: the two tests of the
    prefix agree, and the test [element is None] of [write_dc_xml] never
    fires after [is_dc_column]. *)
Theorem parse_dc_agrees_with_is_dc_column :
  forall col : option string,
    (is_dc_column col = true -> exists e, fst (parse_dc col) = Some e) /\
    (is_dc_column col = false -> parse_dc col = (None, None)).
Proof.
  intros [s|]; cbn [is_dc_column]; split; try discriminate; try reflexivity.
  - unfold PyStr.startswith. intros H.
    destruct (prefix_app _ _ H) as [r Hr].
    destruct (parse_dc_prefixed s r Hr) as (e & t & _ & ->). now exists e.
  - intros H. unfold parse_dc. now rewrite H.
Qed.

Lemma parse_dc_agrees_with_is_dc_column_witness :
  (exists e, fst (parse_dc (Some " DC.Title ")) = Some e) /\
  parse_dc (Some "Filename") = (None, None).
Proof.
  split.
  - apply (proj1 (parse_dc_agrees_with_is_dc_column (Some " DC.Title "))).
    reflexivity.
  - apply (proj2 (parse_dc_agrees_with_is_dc_column (Some "Filename"))).
    reflexivity.
Defined.

(** X7: the decomposition loses nothing: the name, trimmed and in lower
    case, is "dc." followed by the element and, when there is a qualifier,
    a dot and the qualifier; the element holds no dot, the qualifier may. *)
Theorem parse_dc_reassembles :
  forall (s e : string) (q : option string),
    parse_dc (Some s) = (Some e, q) ->
    PyStr.lower (PyStr.strip s) =
      ("dc." ++ e ++ match q with Some x => "." ++ x | None => "" end)%string /\
    PyStr.has_char "." e = false.
Proof.
  intros s e q H.
  destruct (is_dc_column (Some s)) eqn:Hdc.
  - cbn [is_dc_column] in Hdc. destruct (prefix_app _ _ Hdc) as [r Hr].
    destruct (parse_dc_prefixed s r Hr) as (e' & t & E & P).
    rewrite P in H. injection H as -> <-. rewrite Hr.
    pose proof (join_split "." r) as J. rewrite E in J.
    pose proof (split_pieces "." r) as F. rewrite E in F.
    apply Forall_inv in F. split; [|exact F].
    f_equal. rewrite <- J. unfold PyStr.join.
    destruct t as [|h t]; cbn [String.concat]; [|reflexivity].
    clear. induction e as [|a e IH]; simpl; [reflexivity|now rewrite <- IH].
  - unfold parse_dc in H. cbn [is_dc_column] in Hdc. rewrite Hdc in H. discriminate.
Qed.

Lemma parse_dc_reassembles_witness :
  PyStr.lower (PyStr.strip " DC.Description.Abstract.Short ") =
    ("dc." ++ "description" ++ "." ++ "abstract.short")%string /\
  PyStr.has_char "." "description" = false.
Proof.
  apply (parse_dc_reassembles " DC.Description.Abstract.Short " "description"
           (Some "abstract.short")).
  reflexivity.
Defined.

(** ** The metadata writer, continued *)

Lemma triple_eqb_true (a b : triple) : triple_eqb a b = true <-> a = b.
Proof.
  split; [|intros ->; apply triple_eqb_refl].
  destruct a as [[e1 q1] t1], b as [[e2 q2] t2]. unfold triple_eqb.
  rewrite !andb_true_iff, !String.eqb_eq. intros [[-> ->] ->]. reflexivity.
Qed.

Lemma seen_In (t : triple) (seen : list triple) :
  existsb (triple_eqb t) seen = true <-> In t seen.
Proof.
  rewrite existsb_exists. split.
  - intros (x & Hx & E). apply triple_eqb_true in E. now subst.
  - intros H. exists t. split; [exact H|apply triple_eqb_refl].
Qed.

(** The loop adds to the document the triples of the columns it reads,
    and nothing else; every node is built by [node_of]. *)
Lemma write_dc_loop_triples (columns : list (option string)) :
  forall (row_values : list pyval) (seen : list triple) (root : list dcvalue),
    (forall t, In t seen <-> In t (map triple_of root)) ->
    Forall (fun d => d = node_of (triple_of d)) root ->
    (forall t,
       In t (map triple_of (write_dc_loop columns row_values seen root)) <->
       In t (map triple_of root) \/
       exists col val,
         In (col, val) (combine columns row_values) /\
         column_triple col val = Some t) /\
    Forall (fun d => d = node_of (triple_of d))
           (write_dc_loop columns row_values seen root) /\
    List.length (write_dc_loop columns row_values seen root) <=
      List.length root + List.length (combine columns row_values).
Proof.
  induction columns as [|raw_col columns IH]; intros row_values seen root Hseen Hnodes.
  - cbn. split; [|split; [exact Hnodes|lia]].
    intros t. split; [now left|]. intros [H|(c & v & [] & _)]. exact H.
  - destruct row_values as [|val row_values].
    + cbn. split; [|split; [exact Hnodes|lia]].
      intros t. split; [now left|]. intros [H|(c & v & [] & _)]. exact H.
    + cbn [write_dc_loop combine]. destruct (column_triple raw_col val) as [trip|] eqn:Hc.
      * destruct (existsb (triple_eqb trip) seen) eqn:Hin.
        -- destruct (IH row_values seen root Hseen Hnodes) as (H1 & H2 & H3).
           split; [|split; [exact H2|simpl; lia]].
           intros t. rewrite H1. split.
           ++ intros [H|(c & v & Hcv & Ht)]; [now left|].
              right. exists c, v. split; [now right|exact Ht].
           ++ intros [H|(c & v & [E|Hcv] & Ht)]; [now left| |].
              ** injection E as <- <-. rewrite Hc in Ht. injection Ht as <-.
                 left. apply Hseen. now apply seen_In.
              ** right. now exists c, v.
        -- destruct (IH row_values (trip :: seen) (root ++ [node_of trip]))
             as (H1 & H2 & H3).
           { intros t. rewrite map_app, in_app_iff. cbn [map In].
             rewrite triple_of_node, <- Hseen. tauto. }
           { apply Forall_app. split; [exact Hnodes|].
             repeat constructor. now rewrite triple_of_node. }
           split; [|split; [exact H2|rewrite length_app in H3; simpl in *; lia]].
           intros t. rewrite H1, map_app, in_app_iff. cbn [map In].
           rewrite triple_of_node. split.
           ++ intros [[H|[<-|[]]]|(c & v & Hcv & Ht)].
              ** now left.
              ** right. exists raw_col, val. split; [now left|exact Hc].
              ** right. exists c, v. split; [now right|exact Ht].
           ++ intros [H|(c & v & [E|Hcv] & Ht)].
              ** left. now left.
              ** injection E as <- <-. rewrite Hc in Ht. injection Ht as <-.
                 left. right. now left.
              ** right. now exists c, v.
      * destruct (IH row_values seen root Hseen Hnodes) as (H1 & H2 & H3).
        split; [|split; [exact H2|simpl; lia]].
        intros t. rewrite H1. split.
        -- intros [H|(c & v & Hcv & Ht)]; [now left|].
           right. exists c, v. split; [now right|exact Ht].
        -- intros [H|(c & v & [E|Hcv] & Ht)]; [now left| |].
           ++ injection E as <- <-. congruence.
           ++ right. now exists c, v.
Qed.


(** *** Trimming is idempotent *)

Lemma chars_lstrip (s : string) :
  list_ascii_of_string (PyStr.lstrip s) = lstripL (list_ascii_of_string s).
Proof.
  induction s as [|a s IH]; simpl; [reflexivity|].
  now destruct (PyStr.isspace a).
Qed.

Lemma chars_strip (s : string) :
  list_ascii_of_string (PyStr.strip s) =
  List.rev (lstripL (List.rev (lstripL (list_ascii_of_string s)))).
Proof.
  unfold PyStr.strip, PyStr.rstrip, PyStr.rev.
  now rewrite list_ascii_of_string_of_list_ascii, chars_lstrip,
    list_ascii_of_string_of_list_ascii, chars_lstrip.
Qed.

Lemma lstripL_first_ok (l : list ascii) : first_ok (lstripL l).
Proof.
  induction l as [|c l IH]; simpl; [exact I|].
  destruct (PyStr.isspace c) eqn:Hc; [exact IH|exact Hc].
Qed.

Lemma lstripL_id (l : list ascii) : first_ok l -> lstripL l = l.
Proof. destruct l as [|c l]; simpl; [reflexivity|]. now intros ->. Qed.

Lemma lstripL_snoc (l : list ascii) (c : ascii) :
  PyStr.isspace c = false -> lstripL (l ++ [c]) = lstripL l ++ [c].
Proof.
  intros Hc. induction l as [|a l IH]; simpl; [now rewrite Hc|].
  now destruct (PyStr.isspace a).
Qed.

Lemma lstripL_last_ok (l : list ascii) :
  first_ok (List.rev l) -> first_ok (List.rev (lstripL l)).
Proof.
  destruct (List.rev l) as [|c z] eqn:E; intros H.
  - apply (f_equal (@List.rev ascii)) in E. rewrite rev_involutive in E.
    subst l. exact I.
  - apply (f_equal (@List.rev ascii)) in E. rewrite rev_involutive in E.
    subst l. simpl. rewrite lstripL_snoc by exact H.
    rewrite rev_app_distr. exact H.
Qed.

Lemma stripL_idempotent (l : list ascii) :
  List.rev (lstripL (List.rev (lstripL
     (List.rev (lstripL (List.rev (lstripL l))))))) =
  List.rev (lstripL (List.rev (lstripL l))).
Proof.
  set (u := lstripL l). set (w := lstripL (List.rev u)).
  assert (Hw : first_ok w) by apply lstripL_first_ok.
  assert (Hl : first_ok (List.rev w)).
  { apply lstripL_last_ok. rewrite rev_involutive. apply lstripL_first_ok. }
  rewrite (lstripL_id (List.rev w) Hl), rev_involutive.
  now rewrite (lstripL_id w Hw).
Qed.

Lemma strip_idempotent (s : string) : PyStr.strip (PyStr.strip s) = PyStr.strip s.
Proof.
  rewrite <- (string_of_list_ascii_of_string (PyStr.strip (PyStr.strip s))).
  rewrite <- (string_of_list_ascii_of_string (PyStr.strip s)) at 2.
  f_equal. rewrite (chars_strip (PyStr.strip s)), !chars_strip.
  apply stripL_idempotent.
Qed.

Lemma or_none_not_empty (q : option string) : or_none q <> "".
Proof. destruct q as [[|a q]|]; discriminate. Qed.

Lemma column_triple_shape (col : option string) (val : pyval) (t : triple) :
  column_triple col val = Some t ->
  exists (c element : string) (qualifier : option string),
    col = Some c /\
    is_blank val = false /\
    is_dc_column (Some (base_header (Some (norm_header col)))) = true /\
    parse_dc (Some (base_header (Some (norm_header col)))) = (Some element, qualifier) /\
    PyStr.strip (py_str val) <> "" /\
    t = (element, or_none qualifier, PyStr.strip (py_str val)).
Proof.
  unfold column_triple. destruct (is_blank val); [discriminate|].
  destruct col as [c|]; [|discriminate].
  destruct (is_dc_column (Some (base_header (Some (norm_header (Some c)))))); 
    [|discriminate]. cbn [negb].
  destruct (parse_dc (Some (base_header (Some (norm_header (Some c))))))
    as [[element|] qualifier]; [|discriminate].
  destruct (String.eqb (PyStr.strip (py_str val)) "") eqn:Ht; [discriminate|].
  intros [= <-]. exists c, element, qualifier. apply String.eqb_neq in Ht.
  repeat split; auto.
Qed.

(** X9: every field node of the document carries the language "en", a
    text that is trimmed and not empty, and a qualifier that is not empty;
    the document has no more nodes than the record has columns. *)
Theorem write_dc_xml_nodes_are_well_formed :
  forall (columns : list (option string)) (row_values : list pyval),
    (forall d, In d (write_dc_xml columns row_values) ->
       dc_language d = Config.LANG_ATTR /\
       dc_text d <> "" /\
       PyStr.strip (dc_text d) = dc_text d /\
       dc_qualifier d <> "") /\
    List.length (write_dc_xml columns row_values) <=
      Nat.min (List.length columns) (List.length row_values).
Proof.
  intros columns row_values. unfold write_dc_xml.
  destruct (write_dc_loop_triples columns row_values [] []) as (H & Hnodes & Hlen).
  - intros x. reflexivity.
  - constructor.
  - split; [|rewrite length_combine in Hlen; simpl in Hlen; exact Hlen].
    intros d Hd. rewrite Forall_forall in Hnodes. pose proof (Hnodes d Hd) as Hnode.
    assert (Ht : In (triple_of d) (map triple_of (write_dc_loop columns row_values [] [])))
      by now apply in_map.
    apply H in Ht. destruct Ht as [[]|(col & val & _ & Hc)].
    apply column_triple_shape in Hc
      as (c & element & qualifier & _ & _ & _ & _ & Hne & Ht).
    rewrite Hnode, Ht. cbn [node_of dc_language dc_text dc_qualifier].
    repeat split; auto using or_none_not_empty, strip_idempotent.
Qed.

(** ** The checker and the writer *)

Lemma or_none_given (qualifier : option string) (q : string) :
  q <> "" -> q <> "none" -> (or_none qualifier = q <-> qualifier = Some q).
Proof.
  intros H1 H2. destruct qualifier as [[|a x]|]; cbn [or_none]; split;
    intros H; try congruence.
Qed.

Lemma satisfied_iff_node (sp : Spec.specifier) (columns : list (option string))
  (row_values : list pyval) :
  qualifier_given sp ->
  Spec.satisfied sp columns row_values <->
  exists d, In d (write_dc_xml columns row_values) /\ node_matches sp d.
Proof.
  intros Hq. split.
  - intros (col & val & Hin & Hb & Hdc & Hp).
    destruct col as [c|]; [|discriminate Hdc].
    destruct (parse_dc (Some (base_header (Some (norm_header (Some c))))))
      as [en qual] eqn:Hparse.
    assert (Hen : exists element, en = Some element).
    { destruct sp; cbn [fst] in Hp; [now exists element|].
      injection Hp as -> _. now exists element. }
    destruct Hen as [element ->].
    assert (Hc : column_triple (Some c) val =
                 Some (element, or_none qual, PyStr.strip (py_str val))).
    { unfold column_triple. rewrite Hb, Hdc, Hparse. cbn [negb].
      now rewrite (nonblank_text val Hb). }
    assert (Ht : In (element, or_none qual, PyStr.strip (py_str val))
                    (map triple_of (write_dc_xml columns row_values))).
    { unfold write_dc_xml.
      destruct (write_dc_loop_triples columns row_values [] []) as (H & _ & _);
        [intros x; reflexivity|constructor|].
      apply H. right. now exists (Some c), val. }
    apply in_map_iff in Ht as (d & Hd & Hind). exists d. split; [exact Hind|].
    destruct d as [de dq dl dt]. cbn [triple_of dc_element dc_qualifier dc_text] in Hd.
    injection Hd as -> -> ->.
    destruct sp as [e|e q]; cbn [node_matches dc_element dc_qualifier fst] in *.
    + now injection Hp as ->.
    + injection Hp as -> ->. split; [reflexivity|].
      destruct Hq as [H1 H2]. now apply or_none_given.
  - intros (d & Hd & Hm).
    assert (Ht : In (triple_of d) (map triple_of (write_dc_xml columns row_values)))
      by now apply in_map.
    unfold write_dc_xml in Ht.
    destruct (write_dc_loop_triples columns row_values [] []) as (H & _ & _);
      [intros x; reflexivity|constructor|].
    apply H in Ht. destruct Ht as [[]|(col & val & Hin & Hc)].
    apply column_triple_shape in Hc
      as (c & element & qualifier & -> & Hb & Hdc & Hparse & _ & Ht).
    exists (Some c), val. split; [exact Hin|]. split; [exact Hb|]. split; [exact Hdc|].
    rewrite Hparse. unfold triple_of in Ht. injection Ht as He Hqual _.
    destruct sp as [e|e q]; cbn [node_matches fst] in *.
    + congruence.
    + destruct Hm as [<- Hmq], Hq as [H1 H2].
      rewrite He. f_equal. apply (or_none_given qualifier q H1 H2). congruence.
Qed.

(** X10: a required specifier (bare, or with a qualifier other than ""
    and "none") is reported missing by the checker exactly when the
    document the writer produces for the same record has no node with that
    element (and qualifier): the warning and the document agree. *)
Theorem missing_field_iff_no_node_written :
  forall (required : list Spec.specifier) (columns : list (option string))
         (row_values : list pyval) (sp : Spec.specifier),
    In sp required ->
    Spec.well_formed sp ->
    qualifier_given sp ->
    (In (Spec.render sp)
        (required_fields_missing (map Spec.render required) columns row_values) <->
     ~ exists d, In d (write_dc_xml columns row_values) /\ node_matches sp d).
Proof.
  intros required columns row_values sp Hin Hwf Hq.
  unfold required_fields_missing. rewrite filter_In, negb_true_iff.
  rewrite <- (satisfied_iff_node sp columns row_values Hq).
  rewrite <- (field_found_satisfied sp columns row_values Hwf).
  split.
  - intros [_ H]. congruence.
  - intros H. split; [now apply in_map|].
    now destruct (field_found (Spec.render sp) columns row_values).
Qed.

Lemma missing_field_iff_no_node_written_witness :
  In (Spec.render (Spec.Qualified "date" "issued"))
     (required_fields_missing
        (map Spec.render
           [Spec.Bare "title"; Spec.Bare "creator"; Spec.Qualified "date" "issued"])
        [Some "dc.title"; Some "dc.date"] [PStr "A title"; PStr "2001"]) <->
  ~ exists d,
      In d (write_dc_xml [Some "dc.title"; Some "dc.date"] [PStr "A title"; PStr "2001"]) /\
      node_matches (Spec.Qualified "date" "issued") d.
Proof.
  apply (missing_field_iff_no_node_written
           [Spec.Bare "title"; Spec.Bare "creator"; Spec.Qualified "date" "issued"]).
  - right. right. now left.
  - split; reflexivity.
  - split; discriminate.
Defined.

(** ** The validator, continued *)

Lemma lstripL_nil (l : list ascii) :
  lstripL l = [] <-> (forall c, In c l -> PyStr.isspace c = true).
Proof.
  induction l as [|a l IH]; simpl.
  - split; [intros _ c []|reflexivity].
  - destruct (PyStr.isspace a) eqn:Ha.
    + rewrite IH. split.
      * intros H c [<-|Hc]; [exact Ha|now apply H].
      * intros H c Hc. apply H. now right.
    + split; [discriminate|]. intros H. rewrite (H a) in Ha by now left.
      discriminate.
Qed.














(** *** The first word of a manifest line *)

Lemma lstripL_app (x y : list ascii) :
  lstripL (x ++ y) =
  match lstripL x with
  | [] => lstripL y
  | _ => lstripL x ++ y
  end.
Proof.
  induction x as [|a x IH]; cbn [app lstripL]; [reflexivity|].
  destruct (PyStr.isspace a); [exact IH|reflexivity].
Qed.

Lemma of_chars_app (a b : list ascii) :
  string_of_list_ascii (a ++ b) =
  (string_of_list_ascii a ++ string_of_list_ascii b)%string.
Proof. induction a as [|c a IH]; simpl; [reflexivity|now rewrite IH]. Qed.

Lemma take_word_name (name rest : string) :
  all_chars (fun c => negb (PyStr.isspace c)) name ->
  (match rest with
   | EmptyString => True
   | String c _ => PyStr.isspace c = true
   end) ->
  PyStr.take_word (name ++ rest) = name.
Proof.
  unfold all_chars. induction name as [|a name IH]; intros Hn Hr.
  - destruct rest as [|c r]; cbn; [reflexivity|now rewrite Hr].
  - cbn. pose proof (Hn a (or_introl eq_refl)) as Ha.
    apply negb_true_iff in Ha. rewrite Ha. f_equal. apply IH; [|exact Hr].
    intros c Hc. apply Hn. now right.
Qed.

Lemma first_word_name (name rest : string) :
  name <> "" ->
  all_chars (fun c => negb (PyStr.isspace c)) name ->
  (match rest with
   | EmptyString => True
   | String c _ => PyStr.isspace c = true
   end) ->
  PyStr.first_word (name ++ rest) = Some name.
Proof.
  intros Hne Hn Hr. unfold PyStr.first_word.
  destruct name as [|a name]; [congruence|].
  pose proof (Hn a (or_introl eq_refl)) as Ha. apply negb_true_iff in Ha.
  cbn [append PyStr.lstrip]. rewrite Ha.
  change (String a (name ++ rest)) with (String a name ++ rest)%string.
  now rewrite take_word_name.
Qed.

(** The line, trimmed, is the name followed by nothing or by whitespace. *)
Lemma strip_name_line (name : string) (c : ascii) (rest : string) :
  name <> "" ->
  all_chars (fun c => negb (PyStr.isspace c)) name ->
  PyStr.isspace c = true ->
  exists tail,
    PyStr.strip (name ++ String c rest) = (name ++ tail)%string /\
    match tail with
    | EmptyString => True
    | String d _ => PyStr.isspace d = true
    end.
Proof.
  intros Hne Hn Hc.
  assert (Hfirst : forall l, (forall x, In x l -> negb (PyStr.isspace x) = true) ->
                             first_ok l).
  { intros [|x l] H; [exact I|]. cbn. apply negb_true_iff, H. now left. }
  set (n := list_ascii_of_string name). set (r := list_ascii_of_string rest).
  assert (E : list_ascii_of_string (PyStr.strip (name ++ String c rest)) =
              List.rev (lstripL (List.rev (c :: r) ++ List.rev n))).
  { rewrite chars_strip, chars_append. cbn [list_ascii_of_string]. fold n r.
    rewrite (lstripL_id (n ++ c :: r)).
    - now rewrite rev_app_distr.
    - destruct n as [|x n'] eqn:En.
      + exfalso. apply Hne. rewrite <- (string_of_list_ascii_of_string name).
        fold n. now rewrite En.
      + cbn. apply negb_true_iff, Hn. fold n. rewrite En. now left. }
  rewrite lstripL_app in E. cbn [List.rev] in E. rewrite lstripL_app in E.
  destruct (lstripL (List.rev r)) as [|y ys] eqn:Er.
  - cbn [lstripL] in E. rewrite Hc in E.
    rewrite lstripL_id in E by (apply Hfirst; intros x Hx; apply Hn; now apply in_rev).
    rewrite rev_involutive in E. exists "". split; [|exact I].
    rewrite <- (string_of_list_ascii_of_string (PyStr.strip _)), E.
    unfold n. rewrite string_of_list_ascii_of_string.
    clear. induction name as [|a s IH]; simpl; [reflexivity|now rewrite <- IH].
  - cbn [app] in E.
    change (y :: (ys ++ [c]) ++ List.rev n) with (((y :: ys) ++ [c]) ++ List.rev n) in E.
    remember (y :: ys) as z eqn:Ez. clear Ez.
    rewrite rev_app_distr, rev_involutive, rev_app_distr in E.
    change (List.rev [c]) with [c] in E. cbn [app] in E.
    exists (String c (string_of_list_ascii (List.rev z))). split; [|exact Hc].
    rewrite <- (string_of_list_ascii_of_string (PyStr.strip _)), E.
    rewrite of_chars_app. unfold n. rewrite string_of_list_ascii_of_string.
    reflexivity.
Qed.

(** X13: on a manifest line that is a file name without whitespace
    followed by whitespace and anything else (a bundle specifier, the end
    of the line), the validator checks the file name and ignores the
    rest. *)
Theorem manifest_line_first_word_is_the_name :
  forall (name : string) (c : ascii) (rest : string),
    name <> "" ->
    all_chars (fun c => negb (PyStr.isspace c)) name ->
    PyStr.isspace c = true ->
    PyStr.first_word (PyStr.strip (name ++ String c rest)) = Some name.
Proof.
  intros name c rest Hne Hn Hc.
  destruct (strip_name_line name c rest Hne Hn Hc) as (tail & -> & Ht).
  now apply first_word_name.
Qed.

Lemma manifest_line_first_word_is_the_name_witness :
  PyStr.first_word
    (PyStr.strip ("a.pdf" ++ String " " ("bundle:ORIGINAL" ++ String newline ""))) =
  Some "a.pdf".
Proof.
  apply (manifest_line_first_word_is_the_name "a.pdf" " "
           ("bundle:ORIGINAL" ++ String newline "")).
  - discriminate.
  - intros x Hx. cbn in Hx.
    repeat (destruct Hx as [<-|Hx]; [reflexivity|]). destruct Hx.
  - reflexivity.
Defined.

(** ** The pipeline, continued *)

Lemma upd_other (t : tree) (n m : nat) (p : package) :
  m <> n -> upd t n p m = t m.
Proof. intros H. unfold upd. apply Nat.eqb_neq in H. now rewrite H. Qed.

(** The copy loop touches the package [n] only and counts one file for
    each copy that succeeds. *)
Lemma copy_loop_effects (E : env) (n : nat) (found_files : list string) :
  forall (copied : list string) (st : run),
  exists st',
    copy_loop E n found_files copied st =
      (st', Ok (copied ++ filter (fun f => negb (copy_fails E n f)) found_files)) /\
    (forall m, m <> n -> out st' m = out st m) /\
    total_files_copied st' =
      total_files_copied st
      + List.length (filter (fun f => negb (copy_fails E n f)) found_files) /\
    total_missing_files st' = total_missing_files st.
Proof.
  induction found_files as [|fname rest IH]; intros copied st.
  - exists st. cbn. rewrite app_nil_r. repeat split; lia.
  - cbn [copy_loop filter]. destruct (copy_fails E n fname) eqn:Hc; cbn [negb].
    + cbv beta iota zeta delta [bind emit modify].
      match goal with
      | |- context [copy_loop E n rest copied ?s] =>
          destruct (IH copied s) as (st' & Hrun & Hout & Hcnt & Hmiss)
      end.
      exists st'. split; [exact Hrun|]. split; [exact Hout|]. split; assumption.
    + cbv beta iota zeta delta
        [bind store_file gets set_out modify ret emit incr_total_files_copied].
      destruct (out st n) as [p0|] eqn:Hp0; cbv beta iota;
        cbn [out log total_records total_files_copied total_missing_files error_count];
        match goal with
        | |- context [copy_loop E n rest (copied ++ [fname]) ?s] =>
            destruct (IH (copied ++ [fname]) s) as (st' & Hrun & Hout & Hcnt & Hmiss)
        end;
        cbn [out log total_records total_files_copied total_missing_files error_count]
          in *;
        exists st'; (split; [rewrite Hrun, <- app_assoc; reflexivity|]);
        (split; [|split; [simpl List.length; lia|exact Hmiss]]);
        intros m Hm; rewrite (Hout m Hm); [now apply upd_other|reflexivity].
Qed.

Lemma missing_loop_effects (missing_files : list string) :
  forall st : run,
  exists st',
    missing_loop missing_files st = (st', Ok tt) /\
    out st' = out st /\
    total_files_copied st' = total_files_copied st /\
    total_missing_files st' = total_missing_files st + List.length missing_files.
Proof.
  induction missing_files as [|fname rest IH]; intros st.
  - exists st. cbn. repeat split; lia.
  - cbn [missing_loop].
    cbv beta iota zeta delta [bind incr_total_missing_files emit modify].
    cbn [out log total_records total_files_copied total_missing_files error_count].
    match goal with
    | |- context [missing_loop rest ?s] =>
        destruct (IH s) as (st' & Hrun & Hout & Hcnt & Hmiss)
    end.
    cbn [out log total_records total_files_copied total_missing_files error_count] in *.
    exists st'. split; [exact Hrun|]. split; [exact Hout|].
    split; [exact Hcnt|simpl List.length; lia].
Qed.

Ltac frame_done H Hm :=
  injection H as <- <-;
  cbn [out log total_records total_files_copied total_missing_files error_count];
  rewrite ?upd_other by exact Hm; reflexivity.

Lemma record_body_frame (E : env) (columns filename_cols : list string)
  (idx : nat) (row : list pyval) (st : run) :
  forall m, m <> total_records st ->
    out (fst (record_body E columns filename_cols idx row st)) m = out st m.
Proof.
  intros m Hm.
  destruct (record_body E columns filename_cols idx row st) as [st' r] eqn:H.
  cbn [fst]. run_body_in H.
  destruct (validate_required_fields (map Some columns) row); run_body_in H;
    (destruct (mkdir_fails E (total_records st));
     [run_body_in H; frame_done H Hm|run_body_in H]);
    destruct (out st (total_records st)) as [p0|] eqn:Hp0; run_body_in H;
    (destruct (xml_write_fails E (total_records st));
     [run_body_in H; frame_done H Hm|run_body_in H]);
    run_body_in H; rewrite ?Hp0, ?upd_same in H; run_body_in H;
    (destruct (find_files_for_item _ _) as [found|];
     [run_body_in H|run_body_in H; frame_done H Hm]);
    match type of H with
    | context [copy_loop ?E ?n ?f ?c ?s] =>
        destruct (copy_loop_effects E n f c s) as (st4 & Hrun & Hout & _ & _)
    end;
    rewrite Hrun in H; cbv beta iota in H;
    match type of H with
    | context [missing_loop ?l ?s] =>
        destruct (missing_loop_effects l s) as (st5 & Hrun5 & Hout5 & _ & _)
    end;
    rewrite Hrun5 in H; cbv beta iota in H;
    specialize (Hout m Hm); cbn [out] in Hout;
    rewrite ?upd_other in Hout by exact Hm;
    (destruct (contents_open_fails _ _);
     [cbv beta iota in H; injection H as <- <-; now rewrite Hout5|]);
    cbv beta iota in H; rewrite Hout5 in H;
    (destruct (out st4 _); cbv beta iota in H; injection H as <- <-;
     cbn [out]; rewrite ?upd_other by exact Hm; now rewrite ?Hout5).
Qed.

Lemma out_after_record (idx : nat) (st : run) (r : result unit) :
  out (after_record idx st r) = out st.
Proof. now destruct r. Qed.

Lemma total_after_record (idx : nat) (st : run) (r : result unit) :
  total_records (after_record idx st r) = total_records st.
Proof. now destruct r. Qed.

Lemma process_record_total (E : env) (columns filename_cols : list string)
  (idx : nat) (row : list pyval) (st : run) :
  total_records (fst (process_record E columns filename_cols idx row st)) =
  total_records st + 1.
Proof.
  rewrite process_record_run. cbn [fst]. rewrite total_after_record.
  now rewrite same_total_record_body.
Qed.

Lemma process_record_frame (E : env) (columns filename_cols : list string)
  (idx : nat) (row : list pyval) (st : run) :
  forall m, m <> total_records st + 1 ->
    out (fst (process_record E columns filename_cols idx row st)) m = out st m.
Proof.
  intros m Hm. rewrite process_record_run. cbn [fst]. rewrite out_after_record.
  now rewrite record_body_frame.
Qed.


Lemma records_loop_frame (E : env) (columns filename_cols : list string)
  (rows : list (list pyval)) :
  forall (idx : nat) (st : run) (m : nat),
    m <= total_records st \/ total_records st + List.length rows < m ->
    out (fst (records_loop E columns filename_cols idx rows st)) m = out st m.
Proof.
  induction rows as [|row rows IH]; intros idx st m Hm.
  - reflexivity.
  - rewrite records_loop_cons, IH.
    + apply process_record_frame. simpl List.length in Hm. lia.
    + rewrite process_record_total. simpl List.length in Hm. lia.
Qed.

(** X14: a run over [rows] that starts with the record counter at [k]
    writes to the package directories k+1 to k+|rows| and to no other:
    every other directory of the output tree is left as it was. *)
Theorem run_touches_only_its_packages :
  forall (E : env) (columns filename_cols : list string) (idx : nat)
         (rows : list (list pyval)) (st : run) (m : nat),
    m <= total_records st \/ total_records st + List.length rows < m ->
    out (fst (records_loop E columns filename_cols idx rows st)) m = out st m.
Proof. intros. now apply records_loop_frame. Qed.

Lemma run_touches_only_its_packages_witness :
  out (fst (records_loop demo_env demo_columns ["Filename"] 0 [demo_row; demo_row]
              (initial_run no_tree))) 3 =
  out (initial_run no_tree) 3.
Proof.
  apply (run_touches_only_its_packages demo_env demo_columns ["Filename"] 0
           [demo_row; demo_row] (initial_run no_tree) 3).
  right. cbn. lia.
Defined.




Lemma sorted_length (l : list string) : List.length (sorted l) = List.length l.
Proof. symmetry. apply Permutation_length, StringSort.Permuted_sort. Qed.

(** X16: when the body of a record completes, the counter of copied files
    has grown by the number of lines of the manifest it wrote, and the
    counter of missing files by the number of tokens reported missing. *)
Theorem counters_follow_the_manifest :
  forall (E : env) (columns filename_cols : list string) (idx : nat)
         (row : list pyval) (st : run),
    snd (record_body E columns filename_cols idx row st) = Ok tt ->
    exists (found_files : list string) (p : package) (manifest : list string),
      find_files_for_item
        (set_order E (gather_filenames columns row filename_cols)) (files_dir E)
        = Ok found_files /\
      out (fst (record_body E columns filename_cols idx row st)) (total_records st)
        = Some p /\
      pk_contents p = Some manifest /\
      total_files_copied (fst (record_body E columns filename_cols idx row st)) =
        total_files_copied st + List.length manifest /\
      total_missing_files (fst (record_body E columns filename_cols idx row st)) =
        total_missing_files st
        + List.length
            (set_order E
               (set_minus (gather_filenames columns row filename_cols) found_files)).
Proof.
  intros E columns filename_cols idx row st Hok.
  destruct (record_body E columns filename_cols idx row st) as [st' r] eqn:H.
  cbn [fst snd] in *. subst r. run_body_in H.
  destruct (validate_required_fields (map Some columns) row); run_body_in H;
    (destruct (mkdir_fails E (total_records st));
     [run_body_in H; discriminate|run_body_in H]);
    destruct (out st (total_records st)) as [p0|] eqn:Hp0; run_body_in H;
    (destruct (xml_write_fails E (total_records st));
     [run_body_in H; discriminate|run_body_in H]);
    run_body_in H; rewrite ?Hp0, ?upd_same in H; run_body_in H;
    (destruct (find_files_for_item _ _) as [found|];
     [run_body_in H|run_body_in H; discriminate]);
    match type of H with
    | context [copy_loop ?E ?n ?f ?c ?s] =>
        destruct (copy_loop_effects E n f c s) as (st4 & Hrun & _ & Hcnt & Hmiss)
    end;
    rewrite Hrun in H; cbv beta iota in H;
    match type of H with
    | context [missing_loop ?l ?s] =>
        destruct (missing_loop_effects l s) as (st5 & Hrun5 & Hout5 & Hcnt5 & Hmiss5)
    end;
    rewrite Hrun5 in H; cbv beta iota in H;
    (destruct (contents_open_fails _ _); [cbv beta iota in H; discriminate|]);
    cbv beta iota in H;
    (destruct (out st5 _); cbv beta iota in H; [|discriminate]);
    injection H as <-;
    cbn [out log total_records total_files_copied total_missing_files error_count
         app] in *;
    exists found; eexists; eexists;
    (split; [reflexivity|]);
    (split; [apply upd_same|]);
    (split; [reflexivity|]);
    rewrite sorted_length; lia.
Qed.

Lemma counters_follow_the_manifest_witness :
  exists (found_files : list string) (p : package) (manifest : list string),
    find_files_for_item
      (set_order demo_env (gather_filenames demo_columns demo_row ["Filename"]))
      (files_dir demo_env) = Ok found_files /\
    out (fst (record_body demo_env demo_columns ["Filename"] 0 demo_row demo_state))
        (total_records demo_state) = Some p /\
    pk_contents p = Some manifest /\
    total_files_copied
      (fst (record_body demo_env demo_columns ["Filename"] 0 demo_row demo_state)) =
      total_files_copied demo_state + List.length manifest /\
    total_missing_files
      (fst (record_body demo_env demo_columns ["Filename"] 0 demo_row demo_state)) =
      total_missing_files demo_state
      + List.length
          (set_order demo_env
             (set_minus (gather_filenames demo_columns demo_row ["Filename"])
                found_files)).
Proof.
  apply (counters_follow_the_manifest demo_env demo_columns ["Filename"] 0 demo_row
           demo_state).
  reflexivity.
Defined.

(** ** The header detector, continued *)

Lemma header_scan_bound (rows : list (list pyval)) :
  forall (i : nat) (best_idx : option nat) (best_dc_count : Z),
    (forall b, best_idx = Some b -> b < i) ->
    header_scan rows i best_idx best_dc_count = 0 \/
    header_scan rows i best_idx best_dc_count < i + List.length rows.
Proof.
  induction rows as [|row rows IH]; intros i bi bc Hb; cbn [header_scan].
  - destruct bi as [b|]; [|now left].
    destruct (0 <? bc)%Z; [|now left]. right. specialize (Hb b eq_refl).
    simpl. lia.
  - destruct (has_filename row && (2 <=? dc_count row)).
    + right. simpl. lia.
    + simpl List.length. destruct (bc <? Z.of_nat (dc_count row))%Z.
      * destruct (IH (S i) (Some i) (Z.of_nat (dc_count row))) as [H|H].
        -- intros b [= <-]. lia.
        -- now left.
        -- right. lia.
      * destruct (IH (S i) bi bc) as [H|H].
        -- intros b Hbi. specialize (Hb b Hbi). lia.
        -- now left.
        -- right. lia.
Qed.

(** X17: the index [find_header_row] returns is the index of a row that
    was scanned: on a sheet with a row at least it is below the scan limit
    and below the number of rows; on an empty sheet it is 0. *)
Theorem find_header_row_in_range :
  forall (sheet : list (list pyval)) (max_scan : nat),
    (sheet <> [] -> 0 < max_scan ->
     find_header_row sheet max_scan < Nat.min max_scan (List.length sheet)) /\
    (sheet = [] -> find_header_row sheet max_scan = 0).
Proof.
  intros sheet max_scan. split.
  - intros Hne Hpos. unfold find_header_row.
    assert (Hlen : 0 < List.length sheet) by (destruct sheet; [congruence|simpl; lia]).
    destruct (header_scan_bound (firstn max_scan sheet) 0 None (-1)%Z) as [H|H].
    + discriminate.
    + rewrite H. lia.
    + rewrite length_firstn in H. exact H.
  - intros ->. unfold find_header_row. now destruct max_scan.
Qed.

Lemma find_header_row_in_range_witness :
  find_header_row [[PStr "Instructions"]; [PStr "dc.title"; PStr "dc.creator"]]
    Config.MAX_HEADER_SCAN <
  Nat.min Config.MAX_HEADER_SCAN
    (List.length [[PStr "Instructions"]; [PStr "dc.title"; PStr "dc.creator"]]).
Proof.
  apply (proj1 (find_header_row_in_range
                  [[PStr "Instructions"]; [PStr "dc.title"; PStr "dc.creator"]]
                  Config.MAX_HEADER_SCAN)).
  - discriminate.
  - unfold Config.MAX_HEADER_SCAN. lia.
Defined.

(** ** Columns and cells *)

Lemma contains_filename_file (k : string) :
  PyStr.contains "filename" k = true -> PyStr.contains "file" k = true.
Proof.
  induction k as [|a k IH].
  - cbn. discriminate.
  - cbn [PyStr.contains]. rewrite !orb_true_iff. intros [H|H].
    + left. destruct (prefix_app _ _ H) as [r ->]. reflexivity.
    + right. now apply IH.
Qed.

(** X18: a column is taken as a source of file names exactly when it is
    one of the columns and its key (lower case, without whitespace, "_",
    "-" and ".") contains "file" or "bitstream"; the test for "filename"
    adds nothing to the test for "file". *)
Theorem detect_filename_columns_rule :
  forall (columns : list (option string)) (c : string),
    In c (detect_filename_columns columns) <->
    In (Some c) columns /\
    (PyStr.contains "file" (norm_key_for_match c)
     || PyStr.contains "bitstream" (norm_key_for_match c)) = true.
Proof.
  intros columns c. unfold detect_filename_columns. rewrite in_flat_map. split.
  - intros ([name|] & Hin & Hc); [|destruct Hc].
    destruct (PyStr.contains "filename" (norm_key_for_match name)) eqn:F1.
    + destruct Hc as [<-|[]]. split; [exact Hin|].
      now rewrite (contains_filename_file _ F1).
    + cbn [orb] in Hc.
      destruct (PyStr.contains "file" (norm_key_for_match name)
                || PyStr.contains "bitstream" (norm_key_for_match name)) eqn:F2;
        [|destruct Hc].
      destruct Hc as [<-|[]]. now split.
  - intros [Hin Hc]. exists (Some c). split; [exact Hin|].
    destruct (PyStr.contains "filename" (norm_key_for_match c)); cbn [orb];
      [now left|]. rewrite Hc. now left.
Qed.

Lemma strip_all_space (s : string) :
  all_chars PyStr.isspace s -> PyStr.strip s = "".
Proof.
  intros H. rewrite <- (string_of_list_ascii_of_string (PyStr.strip s)), chars_strip.
  now rewrite (proj2 (lstripL_nil _) H).
Qed.

(** X19: a cell that holds only whitespace is blank, and whether a cell
    is blank does not depend on the whitespace around its text. *)
Theorem is_blank_ignores_whitespace :
  forall s : string,
    (all_chars PyStr.isspace s -> is_blank (PStr s) = true) /\
    is_blank (PStr (PyStr.strip s)) = is_blank (PStr s).
Proof.
  intros s. split.
  - intros H. cbn [is_blank]. now rewrite (strip_all_space s H).
  - cbn [is_blank]. now rewrite strip_idempotent.
Qed.

Lemma is_blank_ignores_whitespace_witness :
  is_blank (PStr (String " " (String newline " "))) = true.
Proof.
  apply (proj1 (is_blank_ignores_whitespace (String " " (String newline " ")))).
  intros c [<-|[<-|[<-|[]]]]; reflexivity.
Defined.

Lemma isdigit_not_newline (c : ascii) : PyStr.isdigit c = true -> c <> newline.
Proof. intros H ->. discriminate H. Qed.

(** X20: [base_header] leaves a name as it is unless the name ends in a
    dot followed by digits: a name that ends in a character that is not a
    digit, or in digits that do not follow a dot ("dc.subject2"), is
    returned unchanged. *)
Theorem base_header_keeps_other_names :
  forall (p : string) (c : ascii) (ds : string),
    PyStr.isdigit c = false ->
    c <> "."%char ->
    (ds = "" -> c <> newline) ->
    all_chars PyStr.isdigit ds ->
    base_header (Some (p ++ String c ds)%string) = (p ++ String c ds)%string.
Proof.
  intros p c ds Hc Hdot Hnl Hds. unfold base_header.
  rewrite chars_append. cbn [list_ascii_of_string].
  rewrite rev_app_distr. cbn [List.rev]. rewrite <- app_assoc. cbn [app].
  set (tl := List.rev (list_ascii_of_string p)).
  assert (Hrev : forallb PyStr.isdigit (List.rev (list_ascii_of_string ds)) = true).
  { apply forallb_forall. intros x Hx. apply Hds. now apply in_rev. }
  assert (Hnone : dot_digits_tail (List.rev (list_ascii_of_string ds) ++ c :: tl) = None).
  { unfold dot_digits_tail.
    destruct (List.rev (list_ascii_of_string ds)) as [|d l] eqn:E.
    - cbn [app]. now rewrite Hc.
    - rewrite (drop_digits_app (d :: l) c tl Hrev Hc). cbn [app].
      cbn [forallb] in Hrev. apply andb_prop in Hrev as [Hd _]. rewrite Hd.
      apply Ascii.eqb_neq in Hdot. now rewrite Hdot. }
  rewrite Hnone.
  destruct (List.rev (list_ascii_of_string ds)) as [|d l] eqn:E; cbn [app].
  - assert (Hempty : ds = "").
    { apply (f_equal (@List.rev ascii)) in E. rewrite rev_involutive in E.
      cbn in E. destruct ds; [reflexivity|discriminate]. }
    specialize (Hnl Hempty). apply Ascii.eqb_neq in Hnl. now rewrite Hnl.
  - cbn [forallb] in Hrev. apply andb_prop in Hrev as [Hd _].
    pose proof (isdigit_not_newline d Hd) as Hn. apply Ascii.eqb_neq in Hn.
    now rewrite Hn.
Qed.

Lemma base_header_keeps_other_names_witness :
  base_header (Some ("dc.subjec" ++ String "t" "2")%string) =
  ("dc.subjec" ++ String "t" "2")%string.
Proof.
  apply (base_header_keeps_other_names "dc.subjec" "t" "2").
  - reflexivity.
  - discriminate.
  - discriminate.
  - intros x [<-|[]]. reflexivity.
Defined.

(** ** The report of a validation run *)

(** What [validate_item] appends does not depend on the report it is
    given. *)
Lemma validate_item_delta (it : Validate.item) (rep : Validate.report) :
  Validate.validate_item it rep =
  match Validate.validate_item it [] with
  | Ok d => Ok (rep ++ d)
  | Raise e => Raise e
  end.
Proof.
  unfold Validate.validate_item.
  destruct (Validate.dublin_core it) as [[message|children]|]; try reflexivity.
  match goal with
  | |- match ?c with _ => _ end = _ => destruct c as [[|x xs]|e]
  end; cbn [app]; try reflexivity. now rewrite app_nil_r.
Qed.

Lemma validate_item_entry (it : Validate.item) (d : Validate.report) :
  Validate.validate_item it [] = Ok d ->
  d = [] \/ exists issues, issues <> [] /\ d = [(Validate.item_name it, issues)].
Proof.
  unfold Validate.validate_item.
  destruct (Validate.dublin_core it) as [[message|children]|].
  - intros [= <-]. right. eexists. split; [|reflexivity]. discriminate.
  - match goal with
    | |- match ?c with _ => _ end = _ -> _ => destruct c as [[|x xs]|e]
    end; intros [= <-]; [now left|].
    right. eexists. split; [|reflexivity]. discriminate.
  - intros [= <-]. right. eexists. split; [|reflexivity]. discriminate.
Qed.

Lemma validate_all_grows (items : list Validate.item) :
  forall rep rep',
    Validate.validate_all items rep = Ok rep' ->
    exists added,
      rep' = rep ++ added /\
      List.length added <= List.length items /\
      Forall (fun entry => exists it, In it items /\
                                      fst entry = Validate.item_name it /\
                                      snd entry <> []) added.
Proof.
  induction items as [|it items IH]; intros rep rep' H.
  - injection H as <-. exists []. rewrite app_nil_r. repeat split; auto.
  - cbn [Validate.validate_all] in H. rewrite validate_item_delta in H.
    destruct (Validate.validate_item it []) as [d|e] eqn:Hd; [|discriminate].
    destruct (IH _ _ H) as (added & -> & Hlen & Hall).
    exists (d ++ added). rewrite app_assoc. split; [reflexivity|].
    assert (Hall' : Forall (fun entry => exists it0, In it0 (it :: items) /\
                              fst entry = Validate.item_name it0 /\
                              snd entry <> []) added).
    { eapply Forall_impl; [|exact Hall]. intros a (i & Hi & Ha). exists i.
      split; [now right|exact Ha]. }
    destruct (validate_item_entry it d Hd) as [->|(issues & Hne & ->)].
    + split; [simpl; lia|exact Hall'].
    + split; [simpl; lia|]. constructor; [|exact Hall'].
      exists it. split; [now left|]. now split.
Qed.

(** X21: the report of a run that does not raise is the report it
    started with followed by one entry at most for each package, each
    named after a package and with an issue at least; and the report of a
    whole run is empty exactly when every package, checked alone, gives an
    empty report. *)
Theorem validate_all_report :
  forall items : list Validate.item,
    (forall rep rep',
       Validate.validate_all items rep = Ok rep' ->
       exists added,
         rep' = rep ++ added /\
         List.length added <= List.length items /\
         Forall (fun entry => exists it, In it items /\
                                         fst entry = Validate.item_name it /\
                                         snd entry <> []) added) /\
    (Validate.validate_all items [] = Ok [] <->
     forall it, In it items -> Validate.validate_item it [] = Ok []).
Proof.
  intros items. split; [apply validate_all_grows|].
  induction items as [|it items IH].
  - split; [intros _ it []|reflexivity].
  - cbn [Validate.validate_all]. split.
    + intros H. destruct (Validate.validate_item it []) as [d|e] eqn:Hd;
        [|discriminate].
      destruct (validate_all_grows items d [] H) as (added & E & _).
      symmetry in E. apply app_eq_nil in E as [-> ->].
      intros i [<-|Hi]; [exact Hd|]. now apply IH.
    + intros H. rewrite (H it) by now left. apply IH.
      intros i Hi. apply H. now right.
Qed.

(** ** A run without failure *)





Lemma write_dc_xml_nodes_are_well_formed_witness :
  dc_language (mk_dcvalue "title" "none" "en" "A title") = Config.LANG_ATTR /\
  dc_text (mk_dcvalue "title" "none" "en" "A title") <> "" /\
  PyStr.strip (dc_text (mk_dcvalue "title" "none" "en" "A title")) =
    dc_text (mk_dcvalue "title" "none" "en" "A title") /\
  dc_qualifier (mk_dcvalue "title" "none" "en" "A title") <> "".
Proof.
  apply (proj1 (write_dc_xml_nodes_are_well_formed
                  [Some " dc.Title "; Some "Filename"] [PStr " A title "; PStr "a.pdf"])).
  now left.
Defined.

Lemma validate_all_report_witness :
  Validate.validate_all
    [Validate.mk_item "1"
       (Some (Validate.Parsed
                [Validate.mk_node "dcvalue" (Some "title") (Some "none") (Some "T");
                 Validate.mk_node "dcvalue" (Some "creator") (Some "none") (Some "C");
                 Validate.mk_node "dcvalue" (Some "date") (Some "issued") (Some "2001")]))
       (Some ["a.pdf"]) (fun f => String.eqb f "a.pdf")] [] = Ok [].
Proof.
  apply (proj2 (proj2 (validate_all_report _))).
  intros it [<-|[]]. reflexivity.
Defined.
